(** * avg_temp_map: the data pipeline of [avg_temp_map.py]

    A shallow embedding of [fetch_and_process_data], [visualize_data] and
    [main], and the properties of the station parser, the observation filter,
    the per-station aggregation, the join and normalisation, the cache gate
    and the error paths.

    Conventions of the embedding.
    - Python [str] is [string]; its characters are code points below 256.
    - A Python [float] that the pipeline computes is an exact rational [Q];
      the values that are not numbers (the quotient by a zero divisor, the
      maximum of an empty column) are the extra constructors of [pyfloat].
      The pipeline is embedded without rounding; the conversion of the
      values and the mean of a station are embedded in binary64 as well
      ([tenths_to_celsius64], [mean64], [aggregate64]), for what is said of
      their values.
    - The file system, the standard output, the HTTP traffic and the figures
      shown form an explicit [World], threaded through a state and exception
      monad.
    - [float], [pandas.to_datetime] and [plotly.express.scatter_mapbox] are
      library functions: the program and its properties are parametric in
      them, and the module [Instances] gives instances of them to run the
      pipeline on examples. *)

From stdpp Require Import gmap strings.
From Stdlib Require Import QArith Qabs Qminmax ZArith Ascii String List DecimalString Lia Lqa.
From Stdlib Require Import Sorted.
From Stdlib Require OrderedTypeEx DecimalZ DecimalPos PrimFloat SpecFloat FloatOps.
Import ListNotations.

Close Scope Q_scope.
Local Open Scope string_scope.
Local Open Scope list_scope.

(** ** Python strings *)

(** [s[a:b]] for non-negative [a] and [b]: the slice is cut short, never an
    error, when [s] is shorter than [b]. *)
Definition slice (a b : nat) (s : string) : string := String.substring a (b - a) s.

(** The line boundaries of [str.splitlines] among the code points below 256:
    LF, VT, FF, CR, FS, GS, RS and NEL. *)
Definition is_line_boundary (c : ascii) : bool :=
  match N_of_ascii c with
  | 10 | 11 | 12 | 13 | 28 | 29 | 30 | 133 => true
  | _ => false
  end%N.

Definition is_CR (c : ascii) : bool := N.eqb (N_of_ascii c) 13.
Definition is_LF (c : ascii) : bool := N.eqb (N_of_ascii c) 10.

(** [splitlines_from acc s]: the lines of [s], [acc] holding the characters of
    the current line, last one first.  CR LF is one boundary; a final line is
    produced only if it has a character. *)
Fixpoint splitlines_from (acc : list ascii) (s : string) : list string :=
  match s with
  | EmptyString =>
      match acc with
      | [] => []
      | _ => [string_of_list_ascii (rev acc)]
      end
  | String c rest =>
      if is_line_boundary c then
        string_of_list_ascii (rev acc) ::
          (if is_CR c then
             match rest with
             | String c' rest' =>
                 if is_LF c' then splitlines_from [] rest'
                 else splitlines_from [] rest
             | EmptyString => []
             end
           else splitlines_from [] rest)
      else splitlines_from (c :: acc) rest
  end.

Definition splitlines (s : string) : list string := splitlines_from [] s.

(** [str(n)] for a Python [int] that [str] prints.  CPython from 3.11 on
    refuses an int of more than 4300 digits; there the function is not the
    code. *)
Definition str_int (n : Z) : string := NilZero.string_of_int (Z.to_int n).

(** [x in l] for a list of strings, as [Series.isin] uses it. *)
Definition isin (x : string) (l : list string) : bool :=
  existsb (String.eqb x) l.

(** ** Python floats *)

Inductive pyfloat : Type :=
| Fin (q : Q)
| PInf
| NInf
| NaN.

(** [x / d] for a finite [x]; the divisor of the pipeline is a maximum of
    absolute values, so a zero divisor is the positive zero. *)
Definition fdiv (x : Q) (d : pyfloat) : pyfloat :=
  match d with
  | Fin m =>
      match (m ?= 0)%Q with
      | Eq =>
          match (x ?= 0)%Q with
          | Eq => NaN
          | Gt => PInf
          | Lt => NInf
          end
      | _ => Fin (x / m)
      end
  | PInf | NInf => Fin 0
  | NaN => NaN
  end.

(** [y * k] for a finite positive factor [k]. *)
Definition fmul_pos (y : pyfloat) (k : Q) : pyfloat :=
  match y with
  | Fin q => Fin (q * k)
  | other => other
  end.

(** ** Exceptions *)

Inductive exn : Type :=
| RequestException             (* requests.get or raise_for_status *)
| ValueError (what : string)   (* float() or to_datetime on that text *)
| ReadError                    (* gzip.open, read_csv, naming the columns *)
| OSError (path : string).     (* to_csv cannot open that path for writing *)

(** [except requests.RequestException] catches it. *)
Definition is_RequestException (e : exn) : bool :=
  match e with
  | RequestException => true
  | _ => false
  end.

Definition result (A : Type) : Type := exn + A.

(** ** Tables *)

(** A station tuple [(station_id, lat, lon)]. *)
Definition Station : Type := string * pyfloat * pyfloat.

(** A row of the yearly observation table, with the eight columns the code
    names; [D] and [V] are the types of the DATE and VALUE columns, which the
    code converts in place. *)
Record Row (D V : Type) : Type := mkRow {
  ID : string;
  DATE : D;
  ELEMENT : string;
  VALUE : V;
  MFLAG : string;
  QFLAG : string;
  SFLAG : string;
  OBS_TIME : string
}.
Arguments mkRow {D V}.
Arguments ID {D V}.
Arguments DATE {D V}.
Arguments ELEMENT {D V}.
Arguments VALUE {D V}.
Arguments MFLAG {D V}.
Arguments QFLAG {D V}.
Arguments SFLAG {D V}.
Arguments OBS_TIME {D V}.

(** A calendar date. *)
Record Date : Type := mkDate { d_year : Z; d_month : Z; d_day : Z }.

(** The table as [read_csv] returns it: DATE once [astype(str)] is applied,
    VALUE an integer number of tenths of a degree. *)
Definition Obs : Type := Row string Z.

(** A row of the persisted table, columns ID, VALUE, LAT, LON, SIZE. *)
Record Point : Type := mkPoint {
  pID : string;
  pVALUE : Q;
  pLAT : pyfloat;
  pLON : pyfloat;
  pSIZE : pyfloat
}.

(** The table after [groupby(['ID']).agg({'VALUE': 'mean'}).reset_index()]
    and [merge]: columns ID, VALUE, LAT, LON. *)
Record Joined : Type := mkJoined {
  jID : string;
  jVALUE : Q;
  jLAT : pyfloat;
  jLON : pyfloat
}.

(** ** The world

    What a file holds: a table written by [to_csv], or anything else. *)
Inductive File : Type :=
| Csv (rows : list Point)
| NotATable (bytes : string).

(** The working directory: what the paths hold, and the paths that cannot be
    opened for writing (no such directory, no permission, ...).  A path is a
    key as it is written; which texts name one file is left to the file
    system and is not modelled. *)
Record FileSystem : Type := mkFS {
  contents : gmap string File;
  refuses : string -> bool
}.

Global Instance FileSystem_lookup : Lookup string File FileSystem :=
  fun path fs => contents fs !! path.

Global Instance FileSystem_empty : Empty FileSystem := mkFS ∅ (fun _ => false).

Global Instance FileSystem_insert : Insert string File FileSystem :=
  fun path f fs => mkFS (<[path := f]> (contents fs)) (refuses fs).

(** An HTTP response.  [content] stands for the bytes of the body by what
    [gzip.open] and [pd.read_csv], followed by the naming of the eight
    columns, make of them: a table, or nothing when one of them raises. *)
Record Response : Type := mkResponse {
  status_code : Z;
  text : string;
  content : option (list Obs)
}.

(** The lines the program prints, by their format string. *)
Inductive Message : Type :=
| AlreadyExists (country_code : string) (year : Z)
| FoundStations (n : nat) (country_code : string)
| ProcessedAndSaved (output_file : string)
| ErrorFetching (e : exn)
| ErrorProcessing (e : exn)
| CsvDoesNotExist (csv_file : string)
| ErrorVisualizing (e : exn).

(** A figure [fig.show()] displays: its data frame and the country and year of
    its title. *)
Record Figure : Type := mkFigure {
  fig_frame : list Point;
  fig_country : string;
  fig_year : Z
}.

Record World : Type := mkWorld {
  files : FileSystem;                     (* the working directory *)
  internet : string -> option Response;   (* what a GET of a URL meets; None: no answer *)
  requested : list string;                (* the URLs fetched so far, oldest first *)
  stdout : list Message;                  (* the lines printed so far, oldest first *)
  shown : list Figure                     (* the figures shown so far, oldest first *)
}.

(** The world after one more line is printed, one more URL is requested, a
    file is written, one more figure is shown. *)
Definition printed (m : Message) (w : World) : World :=
  mkWorld (files w) (internet w) (requested w) (stdout w ++ [m]) (shown w).

Definition requesting (url : string) (w : World) : World :=
  mkWorld (files w) (internet w) (requested w ++ [url]) (stdout w) (shown w).

Definition written (path : string) (f : File) (w : World) : World :=
  mkWorld (<[path := f]> (files w)) (internet w) (requested w) (stdout w) (shown w).

Definition showing (fig : Figure) (w : World) : World :=
  mkWorld (files w) (internet w) (requested w) (stdout w) (shown w ++ [fig]).

(** ** State and exception monad *)

Definition M (A : Type) : Type := World -> World * result A.

Definition ret {A : Type} (a : A) : M A := fun w => (w, inr a).

Definition raise {A : Type} (e : exn) : M A := fun w => (w, inl e).

Definition bind {A B : Type} (m : M A) (k : A -> M B) : M B :=
  fun w =>
    match m w with
    | (w', inr a) => k a w'
    | (w', inl e) => (w', inl e)
    end.

Definition lift {A : Type} (r : result A) : M A := fun w => (w, r).

(** [try: body except Exception as e: handler e]. *)
Definition try_except {A : Type} (body : M A) (handler : exn -> M A) : M A :=
  fun w =>
    match body w with
    | (w', inr a) => (w', inr a)
    | (w', inl e) => handler e w'
    end.

Definition rbind {A B : Type} (r : result A) (k : A -> result B) : result B :=
  match r with
  | inr a => k a
  | inl e => inl e
  end.

Notation "'let!' x ':=' m 'in' k" := (bind m (fun x => k))
  (at level 10, x name, m at level 100, k at level 200).
Notation "m ';;' k" := (bind m (fun _ => k))
  (at level 100, k at level 200, right associativity).
Notation "'let?' x ':=' r 'in' k" := (rbind r (fun x => k))
  (at level 10, x name, r at level 100, k at level 200).

(** ** Effects *)

Definition os_path_exists (path : string) : M bool :=
  fun w => (w, inr (bool_decide (is_Some (files w !! path)))).

Definition print (m : Message) : M unit :=
  fun w => (printed m w, inr tt).

(** [requests.get(url)]: the request is made, and raises when nothing
    answers. *)
Definition requests_get (url : string) : M Response :=
  fun w =>
    let w' := requesting url w in
    match internet w url with
    | Some response => (w', inr response)
    | None => (w', inl RequestException)
    end.

(** [response.raise_for_status()]: an HTTPError for a 4xx or 5xx status. *)
Definition raise_for_status (response : Response) : M unit :=
  if ((400 <=? status_code response) && (status_code response <? 600))%Z
  then raise RequestException
  else ret tt.

(** [gzip.open(BytesIO(response.content), 'rt')], [pd.read_csv(f, header=None)]
    and the assignment to [data.columns]. *)
Definition read_csv_gz (response : Response) : M (list Obs) :=
  match content response with
  | Some data => ret data
  | None => raise ReadError
  end.

(** [frame.to_csv(path, index=False)]: raises when the path cannot be opened
    for writing, and writes nothing then. *)
Definition to_csv (path : string) (frame : list Point) : M unit :=
  fun w =>
    if refuses (files w) path
    then (w, inl (OSError path))
    else (written path (Csv frame) w, inr tt).

(** [pd.read_csv(path)] followed by the use of the five columns. *)
Definition read_csv (path : string) : M (list Point) :=
  fun w =>
    match files w !! path with
    | Some (Csv rows) => (w, inr rows)
    | _ => (w, inl ReadError)
    end.

Definition fig_show (fig : Figure) : M unit :=
  fun w => (showing fig w, inr tt).

(** ** pandas operations on the tables *)

Definition TEMPERATURE_ELEMENTS : list string := ["TMAX"; "TMIN"; "TAVG"].

(** [data[data['ID'].isin(station_ids) & data['ELEMENT'].isin([...])].copy()] *)
Definition select_rows {D V : Type} (station_ids : list string) (data : list (Row D V)) : list (Row D V) :=
  filter (fun r => isin (ID r) station_ids && isin (ELEMENT r) TEMPERATURE_ELEMENTS) data.

Definition set_VALUE {D V V' : Type} (f : V -> V') (r : Row D V) : Row D V' :=
  mkRow (ID r) (DATE r) (ELEMENT r) (f (VALUE r)) (MFLAG r) (QFLAG r) (SFLAG r) (OBS_TIME r).

Definition set_DATE {D D' V : Type} (d : D') (r : Row D V) : Row D' V :=
  mkRow (ID r) d (ELEMENT r) (VALUE r) (MFLAG r) (QFLAG r) (SFLAG r) (OBS_TIME r).

(** [astype(float) / 10.0] on one value. *)
Definition tenths_to_celsius (v : Z) : Q := (inject_Z v / 10)%Q.

(** [country_data.loc[:, 'VALUE'] = country_data['VALUE'].astype(float) / 10.0] *)
Definition convert_VALUE {D : Type} (country_data : list (Row D Z)) : list (Row D Q) :=
  map (set_VALUE tenths_to_celsius) country_data.

(** The groups of [groupby(['ID'])]: keys in increasing order, each with the
    VALUEs of its rows in row order. *)
Fixpoint group_insert {V : Type} (k : string) (v : V) (groups : list (string * list V))
  : list (string * list V) :=
  match groups with
  | [] => [(k, [v])]
  | (k', vs) :: rest =>
      match String.compare k k' with
      | Eq => (k', vs ++ [v]) :: rest
      | Lt => (k, [v]) :: groups
      | Gt => (k', vs) :: group_insert k v rest
      end
  end.

Definition groupby_ID {D V : Type} (rows : list (Row D V)) : list (string * list V) :=
  fold_left (fun groups r => group_insert (ID r) (VALUE r) groups) rows [].

Definition Qsum (vs : list Q) : Q := fold_left Qplus vs 0%Q.

Definition mean (vs : list Q) : Q := (Qsum vs / inject_Z (Z.of_nat (length vs)))%Q.

(** [country_data.groupby(['ID']).agg({'VALUE': 'mean'}).reset_index()] *)
Definition groupby_mean {D : Type} (country_data : list (Row D Q)) : list (string * Q) :=
  map (fun g => (fst g, mean (snd g))) (groupby_ID country_data).

(** ** The conversion and the mean in binary64

    What lines 49 and 52 compute on the machine: numpy's conversion and
    division, and the mean of a group as pandas computes it. *)

Definition binary64 : Set := PrimFloat.float.

(** The binary64 nearest to an integer, ties to even: [astype(float)] on an
    int64, and a count turned into a float. *)
Definition float_of_Z (z : Z) : binary64 :=
  FloatOps.SF2Prim (SpecFloat.binary_normalize FloatOps.prec FloatOps.emax z 0 false).

(** [astype(float) / 10.0] on one value. *)
Definition tenths_to_celsius64 (v : Z) : binary64 :=
  PrimFloat.div (float_of_Z v) (float_of_Z 10).

Definition convert_VALUE64 {D : Type} (country_data : list (Row D Z)) : list (Row D binary64) :=
  map (set_VALUE tenths_to_celsius64) country_data.

(** One step of the compensated sum of pandas' group mean, on the running
    sum and its compensation; a compensation that is no number is reset. *)
Definition kahan_step (acc : binary64 * binary64) (val : binary64) : binary64 * binary64 :=
  let sumx := fst acc in
  let compensation := snd acc in
  let y := PrimFloat.sub val compensation in
  let t := PrimFloat.add sumx y in
  let c := PrimFloat.sub (PrimFloat.sub t sumx) y in
  (t, if PrimFloat.eqb c c then c else float_of_Z 0).

Definition kahan_sum (vs : list binary64) : binary64 :=
  fst (fold_left kahan_step vs (float_of_Z 0, float_of_Z 0)).

(** The mean of a group: the compensated sum of its values, in row order,
    divided by their number. *)
Definition mean64 (vs : list binary64) : binary64 :=
  PrimFloat.div (kahan_sum vs) (float_of_Z (Z.of_nat (length vs))).

Definition groupby_mean64 {D : Type} (country_data : list (Row D binary64))
  : list (string * binary64) :=
  map (fun g => (fst g, mean64 (snd g))) (groupby_ID country_data).

(** [left.merge(station_df, on='ID')]: the inner join, in the order of the
    left keys, and for one key in the order of the stations. *)
Definition merge (left : list (string * Q)) (station_df : list Station) : list Joined :=
  flat_map
    (fun l =>
       map (fun st => mkJoined (fst l) (snd l) (snd (fst st)) (snd st))
           (filter (fun st => String.eqb (fst (fst st)) (fst l)) station_df))
    left.

(** [Series.max()] of a column of numbers: NaN for the empty column. *)
Definition series_max (column : list Q) : pyfloat :=
  match column with
  | [] => NaN
  | x :: rest => Fin (fold_left Qmax rest x)
  end.

(** Lines 57 to 59: the SIZE column. *)
Definition add_SIZE (avg_temp_data : list Joined) : list Point :=
  let size := map (fun r => Qabs (jVALUE r)) avg_temp_data in
  let max_temp := series_max size in
  map (fun r => mkPoint (jID r) (jVALUE r) (jLAT r) (jLON r)
                  (fmul_pos (fdiv (Qabs (jVALUE r)) max_temp) 15%Q))
      avg_temp_data.

Definition output_name (country_code : string) (year : Z) : string :=
  country_code ++ "_temperature_" ++ str_int year ++ "_processed.csv".

Definition inventory_url : string :=
  "https://www1.ncdc.noaa.gov/pub/data/ghcn/daily/ghcnd-stations.txt".

Definition ghcn_url (year : Z) : string :=
  "https://www1.ncdc.noaa.gov/pub/data/ghcn/daily/by_year/" ++ str_int year ++ ".csv.gz".

(** [if csv_file:] in [main]. *)
Definition truthy (csv_file : option string) : bool :=
  match csv_file with
  | Some "" => false
  | Some _ => true
  | None => false
  end.

(** ** The program *)

Section Program.

(** [float(s)]: the number, or nothing when it raises ValueError. *)
Variable py_float : string -> option pyfloat.

(** [pd.to_datetime(s, format='%Y%m%d')] on one text: the date, or nothing
    when it raises. *)
Variable to_datetime : string -> option Date.

(** Whether [px.scatter_mapbox] accepts the frame (it raises otherwise). *)
Variable scatter_mapbox_accepts : list Point -> bool.

Definition float (s : string) : result pyfloat :=
  match py_float s with
  | Some x => inr x
  | None => inl (ValueError s)
  end.

(** Lines 26 to 31: the body of the loop over the inventory lines. *)
Definition station_line (country_code : string) (stations : list Station) (line : string)
  : result (list Station) :=
  let country := slice 0 2 line in
  let station_id := slice 0 11 line in
  let? lat := float (slice 12 20 line) in
  let? lon := float (slice 21 30 line) in
  inr (if String.eqb country country_code
       then stations ++ [(station_id, lat, lon)]
       else stations).

(** Lines 24 to 31: [for line in ...: ...], from the stations found so far. *)
Fixpoint station_loop (country_code : string) (lines : list string) (stations : list Station)
  : result (list Station) :=
  match lines with
  | [] => inr stations
  | line :: rest =>
      let? stations' := station_line country_code stations line in
      station_loop country_code rest stations'
  end.

Definition parse_inventory (country_code inventory_data : string) : result (list Station) :=
  station_loop country_code (splitlines inventory_data) [].

(** A line both of whose coordinate fields [float] accepts. *)
Definition line_parses (line : string) : Prop :=
  is_Some (py_float (slice 12 20 line)) /\ is_Some (py_float (slice 21 30 line)).

(** The tuple the loop builds from a line. *)
Definition station_of (line : string) (st : Station) : Prop :=
  fst (fst st) = slice 0 11 line /\
  py_float (slice 12 20 line) = Some (snd (fst st)) /\
  py_float (slice 21 30 line) = Some (snd st).

(** The lines of the requested country. *)
Definition country_lines (country_code : string) (lines : list string) : list string :=
  filter (fun line => String.eqb (slice 0 2 line) country_code) lines.

(** Line 50: the DATE column parsed as a whole; one text that does not
    parse raises. *)
Fixpoint convert_DATE {V : Type} (country_data : list (Row string V)) : result (list (Row Date V)) :=
  match country_data with
  | [] => inr []
  | r :: rest =>
      match to_datetime (DATE r) with
      | Some d =>
          let? rest' := convert_DATE rest in
          inr (set_DATE d r :: rest')
      | None => inl (ValueError (DATE r))
      end
  end.

(** Lines 47 to 52: from the station ids and the observation table to the
    table of the means, columns ID and VALUE. *)
Definition aggregate (station_ids : list string) (data : list Obs) : result (list (string * Q)) :=
  let country_data := select_rows station_ids data in
  let country_data := convert_VALUE country_data in
  let? country_data := convert_DATE country_data in
  inr (groupby_mean country_data).

(** Lines 47 to 52 in binary64. *)
Definition aggregate64 (station_ids : list string) (data : list Obs)
  : result (list (string * binary64)) :=
  let country_data := select_rows station_ids data in
  let country_data := convert_VALUE64 country_data in
  let? country_data := convert_DATE country_data in
  inr (groupby_mean64 country_data).

(** Lines 46 to 59: from the stations and the observation table to the
    table that is saved. *)
Definition process (stations : list Station) (data : list Obs) : result (list Point) :=
  let station_ids := map (fun station => fst (fst station)) stations in
  let? avg_temp_data := aggregate station_ids data in
  let station_df := stations in
  let avg_temp_data := merge avg_temp_data station_df in
  inr (add_SIZE avg_temp_data).

Definition fetch_and_process_data (year : Z) (country_code : string) : M (option string) :=
  let output_file := output_name country_code year in
  let! cached := os_path_exists output_file in
  if cached then
    print (AlreadyExists country_code year);;
    ret (Some output_file)
  else
    try_except
      (let! response := requests_get inventory_url in
       raise_for_status response;;
       let inventory_data := text response in
       let! stations := lift (parse_inventory country_code inventory_data) in
       print (FoundStations (length stations) country_code);;
       let! response := requests_get (ghcn_url year) in
       raise_for_status response;;
       let! data := read_csv_gz response in
       let! avg_temp_data := lift (process stations data) in
       to_csv output_file avg_temp_data;;
       print (ProcessedAndSaved output_file);;
       ret (Some output_file))
      (fun e =>
         if is_RequestException e then
           print (ErrorFetching e);;
           ret None
         else
           print (ErrorProcessing e);;
           ret None).

Definition scatter_mapbox (avg_temp_data : list Point) (country_code : string) (year : Z) : M Figure :=
  if scatter_mapbox_accepts avg_temp_data
  then ret (mkFigure avg_temp_data country_code year)
  else raise (ValueError "scatter_mapbox").

Definition visualize_data (csv_file country_code : string) (year : Z) : M unit :=
  let! present := os_path_exists csv_file in
  if negb present then
    print (CsvDoesNotExist csv_file)
  else
    try_except
      (let! avg_temp_data := read_csv csv_file in
       let! fig := scatter_mapbox avg_temp_data country_code year in
       fig_show fig)
      (fun e => print (ErrorVisualizing e)).

(** [main], from the parsed arguments. *)
Definition main (year : Z) (country : string) : M unit :=
  let! csv_file := fetch_and_process_data year country in
  if truthy csv_file then
    match csv_file with
    | Some path => visualize_data path country year
    | None => ret tt
    end
  else ret tt.

End Program.

(** A status [raise_for_status] raises for. *)
Definition error_status (response : Response) : bool :=
  ((400 <=? status_code response) && (status_code response <? 600))%Z.

(** A GET that raises [RequestException]: nothing answers, or the status is
    an error. *)
Definition fetch_fails (w : World) (url : string) : bool :=
  match internet w url with
  | None => true
  | Some response => error_status response
  end.

(** A GET that returns [response] with a status that is no error. *)
Definition fetch_gives (w : World) (url : string) (response : Response) : Prop :=
  internet w url = Some response /\ error_status response = false.

(** Two observation rows that differ at most in DATE. *)
Definition same_but_DATE (r1 r2 : Obs) : Prop :=
  ID r1 = ID r2 /\ ELEMENT r1 = ELEMENT r2 /\ VALUE r1 = VALUE r2 /\
  MFLAG r1 = MFLAG r2 /\ QFLAG r1 = QFLAG r2 /\ SFLAG r1 = SFLAG r2 /\
  OBS_TIME r1 = OBS_TIME r2.

(** The VALUEs of the pairs (ID, VALUE) whose ID is [k], in order. *)
Definition group_values {V : Type} (k : string) (pairs : list (string * V)) : list V :=
  map snd (filter (fun p => String.eqb (fst p) k) pairs).

Definition nonempty {V : Type} (vs : list V) : option (list V) :=
  match vs with
  | [] => None
  | _ => Some vs
  end.

(** The group of key [k], if there is one. *)
Definition group_lookup {V : Type} (k : string) (groups : list (string * list V))
  : option (list V) :=
  match find (fun g => String.eqb (fst g) k) groups with
  | Some g => Some (snd g)
  | None => None
  end.

Definition key_lt {V : Type} (a b : string * list V) : Prop :=
  String.compare (fst a) (fst b) = Lt.


(** The same values in binary64. *)
Definition celsius64_of (id : string) (station_ids : list string) (data : list Obs)
  : list binary64 :=
  map (fun r => tenths_to_celsius64 (VALUE r))
      (filter (fun r => String.eqb (ID r) id) (select_rows station_ids data)).

(** A row the observation filter keeps. *)
Definition retained {D V : Type} (station_ids : list string) (r : Row D V) : Prop :=
  In (ID r) station_ids /\ In (ELEMENT r) TEMPERATURE_ELEMENTS.

(** ** Instances of the library functions

    Each accepts a part of what the library function accepts, with the same
    result, and rejects the texts used below that the library rejects. *)
Module Instances.

Definition is_space (c : ascii) : bool :=
  match N_of_ascii c with
  | 9 | 10 | 11 | 12 | 13 | 32 => true
  | _ => false
  end%N.

Fixpoint lstrip (l : list ascii) : list ascii :=
  match l with
  | c :: rest => if is_space c then lstrip rest else l
  | [] => []
  end.

Definition strip (l : list ascii) : list ascii := rev (lstrip (rev (lstrip l))).

Definition digit (c : ascii) : option Z :=
  let n := N_of_ascii c in
  if ((48 <=? n) && (n <=? 57))%N then Some (Z.of_N (n - 48)) else None.

(** The leading digits of [l]: their value after [acc], how many there
    are after [count], and what follows them. *)
Fixpoint digits (l : list ascii) (acc : Z) (count : nat) : Z * nat * list ascii :=
  match l with
  | c :: rest =>
      match digit c with
      | Some d => digits rest (10 * acc + d)%Z (S count)
      | None => (acc, count, l)
      end
  | [] => (acc, count, [])
  end.

(** digits, or digits "." digits with a digit on at least one side. *)
Definition unsigned_decimal (l : list ascii) : option Q :=
  let '(i, ni, l1) := digits l 0%Z 0 in
  match l1 with
  | [] => if Nat.eqb ni 0 then None else Some (inject_Z i)
  | c :: l2 =>
      if Ascii.eqb c "." then
        let '(f, nf, l3) := digits l2 0%Z 0 in
        match l3 with
        | [] =>
            if Nat.eqb (ni + nf) 0 then None
            else Some (Qred (Qmake (i * 10 ^ Z.of_nat nf + f) (Z.to_pos (10 ^ Z.of_nat nf))))
        | _ => None
        end
      else None
  end.

(** [float] on the decimal notation without exponent: blanks around, an
    optional sign, digits with an optional point. *)
Definition decimal_float (s : string) : option pyfloat :=
  match strip (list_ascii_of_string s) with
  | c :: l =>
      if Ascii.eqb c "-" then option_map (fun q => Fin (Qred (- q))) (unsigned_decimal l)
      else if Ascii.eqb c "+" then option_map Fin (unsigned_decimal l)
      else option_map Fin (unsigned_decimal (c :: l))
  | [] => None
  end.

Definition is_leap (y : Z) : bool :=
  ((y mod 4 =? 0) && (negb (y mod 100 =? 0) || (y mod 400 =? 0)))%Z.

Definition days_in_month (y m : Z) : Z :=
  match m with
  | 2 => if is_leap y then 29 else 28
  | 4 | 6 | 9 | 11 => 30
  | _ => 31
  end%Z.

(** [to_datetime(s, format='%Y%m%d')] on the texts of eight digits that
    name a day of the years 1678 to 2261, which a Timestamp holds. *)
Definition date_Ymd (s : string) : option Date :=
  match digits (list_ascii_of_string s) 0%Z 0 with
  | (n, 8, []) =>
      let y := (n / 10000)%Z in
      let m := ((n / 100) mod 100)%Z in
      let d := (n mod 100)%Z in
      if ((1678 <=? y) && (y <=? 2261) && (1 <=? m) && (m <=? 12) &&
          (1 <=? d) && (d <=? days_in_month y m))%Z
      then Some (mkDate y m d)
      else None
  | _ => None
  end.

(** [scatter_mapbox] refuses a size that is not a number. *)
Definition finite_sizes (frame : list Point) : bool :=
  forallb (fun p => match pSIZE p with Fin _ => true | _ => false end) frame.

Definition obs (id date element : string) (value : Z) : Obs :=
  mkRow id date element value "" "" "S" "".

Definition LF : string := String (ascii_of_nat 10) "".

(** A world with no file, where the inventory and the archive of [year]
    answer with status 200. *)
Definition online (year : Z) (inventory : string) (archive : option (list Obs)) : World :=
  mkWorld ∅
    (fun url =>
       if String.eqb url inventory_url then Some (mkResponse 200 inventory None)
       else if String.eqb url (ghcn_url year) then Some (mkResponse 200 "" archive)
       else None)
    [] [] [].

Definition run (year : Z) (country_code : string) (w : World) : World * result (option string) :=
  fetch_and_process_data decimal_float date_Ymd year country_code w.

Definition oslo : string := "NO000001020  59.9000   10.7200  100.0    OSLO".
Definition bergen : string := "NO000050540  60.3830    5.3330   12.0    BERGEN".
Definition uppsala : string := "SW000002450  59.8600   17.6300   15.0    UPPSALA".

(** A line of another country whose latitude field is no number. *)
Definition uppsala_bad : string := "SW000002450  N/A      17.6300   15.0    UPPSALA".

Definition inventory_ok : string := oslo ++ LF ++ uppsala ++ LF ++ bergen ++ LF.
Definition inventory_bad : string := oslo ++ LF ++ uppsala_bad ++ LF ++ bergen ++ LF.

Definition stations_NO : list Station :=
  Eval vm_compute in
    match parse_inventory decimal_float "NO" inventory_ok with
    | inr stations => stations
    | inl _ => []
    end.

Definition artifact_NO_2020 : string := Eval vm_compute in output_name "NO" 2020.

(** Three maxima of Oslo, a minimum of Bergen, and rows the filter drops. *)
Definition table_ok : list Obs :=
  [ obs "NO000001020" "20200101" "TMAX" 21;
    obs "NO000001020" "20200101" "PRCP" 50;
    obs "NO000001020" "20200102" "TMAX" 25;
    obs "SW000002450" "20200102" "TMIN" (-30);
    obs "NO000050540" "20200102" "TMIN" (-46);
    obs "NO000001020" "20200103" "TMAX" 23 ].

(** The same rows with other dates. *)
Definition table_other_dates : list Obs :=
  [ obs "NO000001020" "20201231" "TMAX" 21;
    obs "NO000001020" "20200615" "PRCP" 50;
    obs "NO000001020" "20200229" "TMAX" 25;
    obs "SW000002450" "19991231" "TMIN" (-30);
    obs "NO000050540" "20200102" "TMIN" (-46);
    obs "NO000001020" "20000101" "TMAX" 23 ].

(** One retained row with a DATE that is not in the format. *)
Definition table_bad_date : list Obs :=
  [ obs "NO000001020" "20200101" "TMAX" 21;
    obs "NO000001020" "2020-01-02" "TMAX" 25;
    obs "NO000050540" "20200102" "TMIN" (-46) ].



Definition answer (inventory : string) : Response := mkResponse 200 inventory None.
Definition archive (table : list Obs) : Response := mkResponse 200 "" (Some table).

(** Nothing answers. *)
Definition offline : World := mkWorld ∅ (fun _ => None) [] [] [].

(** The inventory answers, the archive of 2020 is not found. *)
Definition archive_missing : World :=
  mkWorld ∅
    (fun url =>
       if String.eqb url inventory_url then Some (answer inventory_ok)
       else if String.eqb url (ghcn_url 2020) then Some (mkResponse 404 "" None)
       else None)
    [] [] [].

(** The artifact of NO and 2020 is there, and nothing answers. *)
Definition cached : World :=
  mkWorld (<[ artifact_NO_2020 := Csv [] ]> ∅) (fun _ => None) [] [] [].

(** The joined table of absolute means 1, 2 and 4. *)
Definition joined_1_2_4 : list Joined :=
  [ mkJoined "NO000001020" 1 (Fin 59.9) (Fin 10.72);
    mkJoined "NO000050540" (-2) (Fin 60.383) (Fin 5.333);
    mkJoined "NO000099710" 4 (Fin 78.25) (Fin 15.467) ]%Q.

(** A size that is the number [q]. *)
Definition size_is (q : Q) (s : pyfloat) : Prop :=
  match s with
  | Fin x => (x == q)%Q
  | _ => False
  end.

(** The same world with a working directory in which nothing can be opened
    for writing. *)
Definition read_only (w : World) : World :=
  mkWorld (mkFS (contents (files w)) (fun _ => true))
          (internet w) (requested w) (stdout w) (shown w).

(** The table saved for [stations_NO] and [table_ok]. *)
Definition frame_ok : list Point :=
  Eval vm_compute in
    match process date_Ymd stations_NO table_ok with
    | inr frame => frame
    | inl _ => []
    end.

(** An inventory with an empty line between two good lines. *)
Definition inventory_blank : string := oslo ++ LF ++ LF ++ bergen ++ LF.

(** Under the name of the artifact of NO and 2020 there is a file that is
    no table, and nothing answers. *)
Definition foreign_file : World :=
  mkWorld (<[ artifact_NO_2020 := NotATable "not a table" ]> ∅) (fun _ => None) [] [] [].

End Instances.

(** * Properties *)

(** ** Strings *)

Lemma slice_country_of_id (line : string) :
  slice 0 2 (slice 0 11 line) = slice 0 2 line.
Proof.
  assert (H0 : forall s, String.substring 0 0 s = "") by (intros []; reflexivity).
  unfold slice. change (11 - 0) with 11. change (2 - 0) with 2.
  destruct line as [|a [|b line]]; try reflexivity.
  cbn. now rewrite !H0.
Qed.

Lemma isin_In (x : string) (l : list string) : isin x l = true <-> In x l.
Proof.
  unfold isin. rewrite existsb_exists. split.
  - intros [y [Hy Heq]]. apply String.eqb_eq in Heq. now subst.
  - intros H. exists x. split; [assumption | apply String.eqb_refl].
Qed.

(** ** The station parser *)

Section ParserFacts.

Variable py_float : string -> option pyfloat.

Lemma station_line_inr cc stations line stations' :
  station_line py_float cc stations line = inr stations' ->
  line_parses py_float line /\
  ((slice 0 2 line = cc /\ exists st, station_of py_float line st /\ stations' = stations ++ [st]) \/
   (slice 0 2 line <> cc /\ stations' = stations)).
Proof.
  unfold station_line, float, line_parses, station_of.
  destruct (py_float (slice 12 20 line)) as [lat|] eqn:Hlat; simpl; [|discriminate].
  destruct (py_float (slice 21 30 line)) as [lon|] eqn:Hlon; simpl; [|discriminate].
  intros H. injection H as <-. split; [split; eexists; reflexivity|].
  destruct (String.eqb_spec (slice 0 2 line) cc) as [Heq|Hne].
  - left. split; [assumption|]. exists (slice 0 11 line, lat, lon). simpl. auto.
  - right. auto.
Qed.

Lemma station_line_inl cc stations line :
  ~ line_parses py_float line ->
  exists what, station_line py_float cc stations line = inl (ValueError what).
Proof.
  unfold station_line, float, line_parses. intros Hbad.
  destruct (py_float (slice 12 20 line)) as [lat|] eqn:Hlat; simpl; [|eauto].
  destruct (py_float (slice 21 30 line)) as [lon|] eqn:Hlon; simpl; [|eauto].
  exfalso. apply Hbad. split; eexists; reflexivity.
Qed.

Lemma station_line_total cc stations line :
  line_parses py_float line ->
  exists stations', station_line py_float cc stations line = inr stations'.
Proof.
  unfold station_line, float, line_parses. intros [[lat Hlat] [lon Hlon]].
  rewrite Hlat, Hlon. simpl. eauto.
Qed.

Lemma station_loop_inr cc lines : forall stations result,
  station_loop py_float cc lines stations = inr result ->
  Forall (line_parses py_float) lines /\
  exists new, result = stations ++ new /\
              Forall2 (station_of py_float) (country_lines cc lines) new.
Proof.
  induction lines as [|line rest IH]; intros stations result H; simpl in H.
  - injection H as <-. split; [constructor|]. exists []. split; [now rewrite app_nil_r | constructor].
  - destruct (station_line py_float cc stations line) as [e|stations'] eqn:Hline;
      simpl in H; [discriminate|].
    apply station_line_inr in Hline as [Hp Hcase].
    apply IH in H as [Hall [new [-> Hnew]]].
    split; [constructor; assumption|].
    unfold country_lines in *. simpl.
    destruct Hcase as [[Hcc [st [Hst ->]]] | [Hcc ->]].
    + apply String.eqb_eq in Hcc. rewrite Hcc.
      exists (st :: new). split; [now rewrite <- app_assoc | constructor; assumption].
    + apply String.eqb_neq in Hcc. rewrite Hcc. exists new. auto.
Qed.

Lemma station_loop_inl cc lines : forall stations line,
  In line lines -> ~ line_parses py_float line ->
  exists what, station_loop py_float cc lines stations = inl (ValueError what).
Proof.
  induction lines as [|l rest IH]; intros stations line Hin Hbad; [destruct Hin|].
  simpl.
  destruct (station_line py_float cc stations l) as [e|stations'] eqn:Hline; simpl.
  - destruct Hin as [-> | Hin].
    + destruct (station_line_inl cc stations line Hbad) as [what Hw].
      rewrite Hw in Hline. injection Hline as <-. eauto.
    + unfold station_line, float in Hline.
      destruct (py_float (slice 12 20 l)); simpl in Hline;
        [destruct (py_float (slice 21 30 l)); simpl in Hline|];
        try discriminate; injection Hline as <-; eauto.
  - destruct Hin as [-> | Hin].
    + apply station_line_inr in Hline as [Hp _]. contradiction.
    + eapply IH; eassumption.
Qed.

Lemma station_loop_total cc lines : forall stations,
  Forall (line_parses py_float) lines ->
  exists result, station_loop py_float cc lines stations = inr result.
Proof.
  induction lines as [|l rest IH]; intros stations Hall; simpl; [eauto|].
  inversion Hall as [|? ? Hl Hrest]; subst.
  destruct (station_line_total cc stations l Hl) as [stations' ->]. simpl.
  apply IH. assumption.
Qed.

(** C7: on an inventory text every line of which has coordinate fields that
    [float] accepts, the parser returns; every station record returned has an
    id whose first two characters are the requested country code; and the
    records are those of the lines of that country, in the order of the
    lines. *)
Theorem parse_inventory_country_prefix_in_order cc inventory_data :
  Forall (line_parses py_float) (splitlines inventory_data) ->
  exists stations,
    parse_inventory py_float cc inventory_data = inr stations /\
    Forall (fun st => slice 0 2 (fst (fst st)) = cc) stations /\
    Forall2 (station_of py_float) (country_lines cc (splitlines inventory_data)) stations.
Proof.
  unfold parse_inventory. intros Hvalid.
  destruct (station_loop_total cc _ [] Hvalid) as [stations H].
  exists stations. split; [exact H|].
  apply station_loop_inr in H as [_ [new [-> Hnew]]]. simpl.
  split; [|assumption].
  remember (country_lines cc (splitlines inventory_data)) as ls eqn:Hls.
  assert (Hcc : Forall (fun line => slice 0 2 line = cc) ls).
  { subst ls. unfold country_lines. apply List.Forall_forall. intros l Hl.
    apply filter_In in Hl as [_ Hl]. now apply String.eqb_eq. }
  clear Hls. induction Hnew as [|l st ls' new' Hst _ IH]; [constructor|].
  inversion Hcc; subst. constructor; [|now apply IH].
  destruct Hst as [Hid _]. rewrite Hid. apply slice_country_of_id.
Qed.

End ParserFacts.

(** ** Grouping *)

Lemma key_lt_trans {V : Type} (a b c : string * list V) :
  key_lt a b -> key_lt b c -> key_lt a c.
Proof.
  unfold key_lt. intros H1 H2.
  apply OrderedTypeEx.String_as_OT.cmp_lt in H1, H2.
  apply OrderedTypeEx.String_as_OT.cmp_lt.
  eapply OrderedTypeEx.String_as_OT.lt_trans; eassumption.
Qed.

Lemma compare_Lt_neq a b : String.compare a b = Lt -> a <> b.
Proof.
  intros H ->. apply OrderedTypeEx.String_as_OT.cmp_lt in H.
  apply OrderedTypeEx.String_as_OT.lt_not_eq in H. apply H. reflexivity.
Qed.

Lemma compare_Gt_Lt a b : String.compare a b = Gt -> String.compare b a = Lt.
Proof. intros H. rewrite String.compare_antisym, H. reflexivity. Qed.

Lemma group_lookup_above {V : Type} k (g : list (string * list V)) :
  Forall (fun x => String.compare k (fst x) = Lt) g -> group_lookup k g = None.
Proof.
  unfold group_lookup. induction 1 as [|x g Hx _ IH]; [reflexivity|].
  simpl. apply compare_Lt_neq in Hx.
  destruct (String.eqb_spec (fst x) k) as [Heq|_]; [congruence|]. exact IH.
Qed.

Lemma group_lookup_insert_same {V : Type} k (v : V) g :
  StronglySorted key_lt g ->
  group_lookup k (group_insert k v g) =
    Some (match group_lookup k g with Some vs => vs | None => [] end ++ [v]).
Proof.
  induction 1 as [|[k' vs] g Hs IH Hall]; simpl.
  - unfold group_lookup. simpl. now rewrite String.eqb_refl.
  - destruct (String.compare k k') eqn:Hc.
    + apply String.compare_eq_iff in Hc. subst k'.
      unfold group_lookup. simpl. now rewrite String.eqb_refl.
    + assert (Hnone : group_lookup k ((k', vs) :: g) = None).
      { apply group_lookup_above. constructor; [exact Hc|].
        eapply Forall_impl; [|exact Hall]. intros x Hx. simpl in Hx.
        exact (key_lt_trans (k, []) (k', vs) x Hc Hx). }
      rewrite Hnone. unfold group_lookup. simpl. now rewrite String.eqb_refl.
    + apply compare_Gt_Lt, compare_Lt_neq in Hc.
      unfold group_lookup in *. simpl.
      destruct (String.eqb_spec k' k) as [Heq|_]; [congruence|]. exact IH.
Qed.

Lemma group_lookup_insert_other {V : Type} k (v : V) k' g :
  k' <> k -> group_lookup k' (group_insert k v g) = group_lookup k' g.
Proof.
  intros Hne. induction g as [|[k0 vs] g IH]; simpl.
  - unfold group_lookup. simpl.
    destruct (String.eqb_spec k k') as [Heq|_]; [congruence | reflexivity].
  - destruct (String.compare k k0) eqn:Hc.
    + apply String.compare_eq_iff in Hc. subst k0. unfold group_lookup. simpl.
      destruct (String.eqb_spec k k') as [Heq|_]; [congruence | reflexivity].
    + unfold group_lookup. simpl.
      destruct (String.eqb_spec k k') as [Heq|_]; [congruence | reflexivity].
    + unfold group_lookup in *. simpl.
      destruct (String.eqb k0 k'); [reflexivity | exact IH].
Qed.

Lemma group_insert_Forall {V : Type} (P : string -> Prop) k (v : V) g :
  P k -> Forall (fun x => P (fst x)) g -> Forall (fun x => P (fst x)) (group_insert k v g).
Proof.
  intros Hk. induction 1 as [|[k' vs] g Hx Hg IH]; simpl.
  - constructor; [exact Hk | constructor].
  - destruct (String.compare k k'); repeat constructor; assumption.
Qed.

Lemma group_insert_sorted {V : Type} k (v : V) g :
  StronglySorted key_lt g -> StronglySorted key_lt (group_insert k v g).
Proof.
  induction 1 as [|[k' vs] g Hs IH Hall]; simpl.
  - repeat constructor.
  - destruct (String.compare k k') eqn:Hc.
    + constructor; assumption.
    + constructor; [constructor; assumption|].
      constructor; [exact Hc|].
      eapply Forall_impl; [|exact Hall]. intros x Hx.
      exact (key_lt_trans (k, [v]) (k', vs) x Hc Hx).
    + constructor; [exact IH|].
      apply (group_insert_Forall (fun x => String.compare k' x = Lt));
        [now apply compare_Gt_Lt | exact Hall].
Qed.

Lemma group_values_snoc {V : Type} k (pairs : list (string * V)) p :
  group_values k (pairs ++ [p]) =
    group_values k pairs ++ (if String.eqb (fst p) k then [snd p] else []).
Proof.
  unfold group_values. rewrite filter_app, map_app. simpl.
  destruct (String.eqb (fst p) k); reflexivity.
Qed.

Lemma fold_group_insert {V : Type} (pairs : list (string * V)) : forall groups before,
  StronglySorted key_lt groups ->
  (forall k, group_lookup k groups = nonempty (group_values k before)) ->
  let result := fold_left (fun g p => group_insert (fst p) (snd p) g) pairs groups in
  StronglySorted key_lt result /\
  forall k, group_lookup k result = nonempty (group_values k (before ++ pairs)).
Proof.
  induction pairs as [|p pairs IH]; intros groups before Hs Hl; simpl.
  - rewrite app_nil_r. auto.
  - replace (before ++ p :: pairs) with ((before ++ [p]) ++ pairs)
      by now rewrite <- app_assoc.
    apply IH; [now apply group_insert_sorted|].
    intros k. rewrite group_values_snoc.
    destruct (String.eqb_spec (fst p) k) as [<-|Hne].
    + rewrite group_lookup_insert_same by assumption. rewrite Hl.
      destruct (group_values (fst p) before); reflexivity.
    + rewrite group_lookup_insert_other by congruence.
      now rewrite Hl, app_nil_r.
Qed.

Lemma groupby_ID_pairs {D V : Type} (rows : list (Row D V)) :
  groupby_ID rows =
    fold_left (fun g p => group_insert (fst p) (snd p) g)
              (map (fun r => (ID r, VALUE r)) rows) [].
Proof.
  unfold groupby_ID. generalize (@nil (string * list V)).
  induction rows as [|r rows IH]; intros g; simpl; [reflexivity | apply IH].
Qed.

Lemma groupby_ID_spec {D V : Type} (rows : list (Row D V)) :
  StronglySorted key_lt (groupby_ID rows) /\
  forall k, group_lookup k (groupby_ID rows) =
            nonempty (group_values k (map (fun r => (ID r, VALUE r)) rows)).
Proof.
  rewrite groupby_ID_pairs.
  apply (fold_group_insert _ [] []); [constructor | reflexivity].
Qed.

Lemma sorted_In_lookup {V : Type} k (vs : list V) g :
  StronglySorted key_lt g -> In (k, vs) g -> group_lookup k g = Some vs.
Proof.
  induction 1 as [|[k' vs'] g Hs IH Hall]; intros Hin; [destruct Hin|].
  destruct Hin as [Heq | Hin].
  - injection Heq as -> ->. unfold group_lookup. simpl. now rewrite String.eqb_refl.
  - rewrite List.Forall_forall in Hall. specialize (Hall _ Hin).
    apply compare_Lt_neq in Hall. simpl in Hall.
    unfold group_lookup in *. simpl.
    destruct (String.eqb_spec k' k) as [Heq|_]; [congruence|]. now apply IH.
Qed.

Lemma lookup_In {V : Type} k (vs : list V) g : group_lookup k g = Some vs -> In (k, vs) g.
Proof.
  unfold group_lookup.
  destruct (find _ g) as [[k' vs']|] eqn:Hf; [|discriminate].
  intros H. injection H as <-. apply find_some in Hf as [Hin Heq].
  apply String.eqb_eq in Heq. simpl in Heq. now subst.
Qed.

(** Whatever is computed from a group, the table has a row for exactly the
    keys with a value, and the row holds what is computed from the values of
    the key, in row order. *)
Lemma groupby_agg_spec {D V W : Type} (agg : list V -> W) (rows : list (Row D V)) k m :
  In (k, m) (map (fun g => (fst g, agg (snd g))) (groupby_ID rows)) <->
  let vs := group_values k (map (fun r => (ID r, VALUE r)) rows) in
  vs <> [] /\ m = agg vs.
Proof.
  destruct (groupby_ID_spec rows) as [Hs Hl]. simpl.
  rewrite in_map_iff. split.
  - intros [[k' vs] [Heq Hin]]. simpl in Heq. injection Heq as -> <-.
    apply (sorted_In_lookup _ _ _ Hs) in Hin. rewrite Hl in Hin.
    destruct (group_values k _) as [|v vs'] eqn:Hv; [discriminate|].
    injection Hin as <-. split; [discriminate | reflexivity].
  - intros [Hne ->]. eexists (k, _). split; [reflexivity|].
    apply lookup_In. rewrite Hl.
    destruct (group_values k _); [contradiction | reflexivity].
Qed.

Lemma pairs_of_set_VALUE {D V W : Type} (f : V -> W) k (rows : list (Row D V)) :
  group_values k (map (fun r => (ID r, VALUE r)) (map (set_VALUE f) rows)) =
  map (fun r => f (VALUE r)) (filter (fun r => String.eqb (ID r) k) rows).
Proof.
  unfold group_values.
  induction rows as [|r rows IH]; simpl; [reflexivity|].
  destruct (String.eqb (ID r) k); simpl; now rewrite IH.
Qed.


(** ** The observation filter and the aggregation *)

Lemma select_rows_In {D V : Type} (station_ids : list string) (data : list (Row D V)) r :
  In r (select_rows station_ids data) <-> In r data /\ retained station_ids r.
Proof.
  unfold select_rows, retained. rewrite filter_In, andb_true_iff, !isin_In. tauto.
Qed.

Lemma select_rows_drop {D V : Type} (station_ids : list string) (d1 d2 : list (Row D V)) r :
  ~ retained station_ids r ->
  select_rows station_ids (d1 ++ r :: d2) = select_rows station_ids (d1 ++ d2).
Proof.
  intros Hout. unfold select_rows. rewrite !filter_app. cbn [filter].
  destruct (isin (ID r) station_ids && isin (ELEMENT r) TEMPERATURE_ELEMENTS) eqn:Hb;
    [|reflexivity].
  exfalso. apply Hout. apply andb_true_iff in Hb as [H1 H2].
  split; now apply isin_In.
Qed.


Lemma groupby_mean_pairs {D D' : Type} (rows : list (Row D Q)) (rows' : list (Row D' Q)) :
  map (fun r => (ID r, VALUE r)) rows = map (fun r => (ID r, VALUE r)) rows' ->
  groupby_mean rows = groupby_mean rows'.
Proof.
  intros H. unfold groupby_mean. now rewrite !groupby_ID_pairs, H.
Qed.

Section AggregateFacts.

Variable to_datetime : string -> option Date.

Lemma convert_DATE_inr {V : Type} (rows : list (Row string V)) : forall rows',
  convert_DATE to_datetime rows = inr rows' ->
  map (fun r => (ID r, VALUE r)) rows' = map (fun r => (ID r, VALUE r)) rows.
Proof.
  induction rows as [|r rows IH]; intros rows' H; simpl in H.
  - now injection H as <-.
  - destruct (to_datetime (DATE r)) as [d|]; [|discriminate].
    destruct (convert_DATE to_datetime rows) as [e|rest]; simpl in H; [discriminate|].
    injection H as <-. simpl. now rewrite (IH rest).
Qed.

Lemma convert_DATE_total {V : Type} (rows : list (Row string V)) :
  Forall (fun r => is_Some (to_datetime (DATE r))) rows ->
  exists rows', convert_DATE to_datetime rows = inr rows'.
Proof.
  induction 1 as [|r rows [d Hd] _ [rest IH]]; simpl; [eauto|].
  rewrite Hd, IH. simpl. eauto.
Qed.

Lemma convert_DATE_inl {V : Type} (rows : list (Row string V)) r :
  In r rows -> to_datetime (DATE r) = None ->
  exists what, convert_DATE to_datetime rows = inl (ValueError what).
Proof.
  induction rows as [|r0 rows IH]; intros Hin Hbad; [destruct Hin|].
  simpl. destruct Hin as [-> | Hin].
  - rewrite Hbad. eauto.
  - destruct (to_datetime (DATE r0)); [|eauto].
    destruct (IH Hin Hbad) as [what ->]. simpl. eauto.
Qed.


Lemma retained_dates_convert station_ids (data : list Obs) :
  (forall r, In r data -> retained station_ids r -> is_Some (to_datetime (DATE r))) ->
  Forall (fun r => is_Some (to_datetime (DATE r))) (convert_VALUE (select_rows station_ids data)).
Proof.
  intros H. unfold convert_VALUE. apply List.Forall_forall. intros c Hc.
  apply in_map_iff in Hc as [r [<- Hr]]. apply select_rows_In in Hr as [Hin Hret].
  simpl. now apply H.
Qed.

Lemma aggregate_total station_ids data :
  (forall r, In r data -> retained station_ids r -> is_Some (to_datetime (DATE r))) ->
  exists avg, aggregate to_datetime station_ids data = inr avg.
Proof.
  intros H. unfold aggregate.
  destruct (convert_DATE_total _ (retained_dates_convert station_ids data H)) as [rows' ->].
  simpl. eauto.
Qed.

Lemma aggregate_inl station_ids data r :
  In r data -> retained station_ids r -> to_datetime (DATE r) = None ->
  exists what, aggregate to_datetime station_ids data = inl (ValueError what).
Proof.
  intros Hin Hret Hbad. unfold aggregate.
  assert (Hc : In (set_VALUE tenths_to_celsius r) (convert_VALUE (select_rows station_ids data))).
  { unfold convert_VALUE. apply in_map. apply select_rows_In. auto. }
  destruct (convert_DATE_inl _ _ Hc Hbad) as [what ->]. simpl. eauto.
Qed.

(** C6: a row the observation filter retains is a row of the table whose
    element is TMAX, TMIN or TAVG and whose station id is in the requested
    set, and conversely; a row outside the filter contributes to no average:
    the table of the means is the same with or without it, whatever its
    DATE and VALUE. *)
Theorem filter_keeps_requested_temperature_rows station_ids (data : list Obs) :
  (forall r,
     In r (select_rows station_ids data) <->
     In r data /\ In (ID r) station_ids /\
     (ELEMENT r = "TMAX" \/ ELEMENT r = "TMIN" \/ ELEMENT r = "TAVG")) /\
  (forall d1 r d2,
     data = d1 ++ r :: d2 ->
     ~ (In (ID r) station_ids /\
        (ELEMENT r = "TMAX" \/ ELEMENT r = "TMIN" \/ ELEMENT r = "TAVG")) ->
     aggregate to_datetime station_ids data = aggregate to_datetime station_ids (d1 ++ d2)).
Proof.
  assert (Hret : forall r : Obs,
             retained station_ids r <->
             In (ID r) station_ids /\
             (ELEMENT r = "TMAX" \/ ELEMENT r = "TMIN" \/ ELEMENT r = "TAVG")).
  { intros r. unfold retained, TEMPERATURE_ELEMENTS. simpl. intuition congruence. }
  split.
  - intros r. rewrite select_rows_In, Hret. reflexivity.
  - intros d1 r d2 -> Hout. unfold aggregate.
    assert (E : select_rows station_ids (d1 ++ r :: d2) = select_rows station_ids (d1 ++ d2))
      by (apply select_rows_drop; now rewrite Hret).
    now rewrite E.
Qed.

Lemma retained_dates_convert64 station_ids (data : list Obs) :
  (forall r, In r data -> retained station_ids r -> is_Some (to_datetime (DATE r))) ->
  Forall (fun r => is_Some (to_datetime (DATE r)))
         (convert_VALUE64 (select_rows station_ids data)).
Proof.
  intros H. unfold convert_VALUE64. apply List.Forall_forall. intros c Hc.
  apply in_map_iff in Hc as [r [<- Hr]]. apply select_rows_In in Hr as [Hin Hret].
  simpl. now apply H.
Qed.

(** C5, as the code has it: the values are binary64.  Every retained row is
    converted to the binary64 quotient of its raw value, itself taken to the
    nearest binary64, by ten; when the DATE of every retained row parses the
    aggregation returns a table of means in which a station has a row
    exactly when the filter retains a row of it, that row holding the
    binary64 mean of pandas: the compensated sum of the converted values of
    the station, in row order, divided by their number; a station without a
    retained row has no row. *)
Theorem station_mean_is_the_binary64_mean station_ids data :
  (forall r, In r data -> retained station_ids r -> is_Some (to_datetime (DATE r))) ->
  map VALUE (convert_VALUE64 (select_rows station_ids data)) =
    map (fun r => PrimFloat.div (float_of_Z (VALUE r)) (float_of_Z 10))
        (select_rows station_ids data) /\
  exists avg,
    aggregate64 to_datetime station_ids data = inr avg /\
    (forall id m,
       In (id, m) avg <->
       let vs := celsius64_of id station_ids data in
       vs <> [] /\
       m = PrimFloat.div (kahan_sum vs) (float_of_Z (Z.of_nat (length vs)))) /\
    (forall id,
       (forall r, In r (select_rows station_ids data) -> ID r <> id) ->
       forall m, ~ In (id, m) avg).
Proof.
  intros Hdates. split.
  { unfold convert_VALUE64. rewrite map_map. reflexivity. }
  destruct (convert_DATE_total _ (retained_dates_convert64 station_ids data Hdates))
    as [rows' Hd].
  assert (Hspec : forall id m,
            In (id, m) (groupby_mean64 rows') <->
            celsius64_of id station_ids data <> [] /\
            m = mean64 (celsius64_of id station_ids data)).
  { intros id m. unfold groupby_mean64. rewrite groupby_agg_spec. simpl.
    rewrite (convert_DATE_inr _ _ Hd). unfold convert_VALUE64.
    rewrite pairs_of_set_VALUE. reflexivity. }
  exists (groupby_mean64 rows'). split; [|split].
  - unfold aggregate64. rewrite Hd. reflexivity.
  - exact Hspec.
  - intros id Hnone m Hin. apply Hspec in Hin as [Hne _].
    apply Hne. unfold celsius64_of.
    destruct (filter _ (select_rows station_ids data)) as [|r rest] eqn:Hf; [reflexivity|].
    assert (Hr : In r (filter (fun r => String.eqb (ID r) id) (select_rows station_ids data)))
      by (rewrite Hf; now left).
    apply filter_In in Hr as [Hr Heq]. apply String.eqb_eq in Heq.
    exfalso. exact (Hnone r Hr Heq).
Qed.

End AggregateFacts.

(** ** The SIZE column *)

Local Open Scope Q_scope.

Lemma Qmax_cases (x y : Q) : Qmax x y = x \/ Qmax x y = y.
Proof.
  unfold Qmax, GenericMinMax.gmax. destruct (x ?= y); auto.
Qed.

Lemma fold_Qmax_In (l : list Q) : forall x, In (fold_left Qmax l x) (x :: l).
Proof.
  induction l as [|y l IH]; intros x; simpl; [auto|].
  destruct (IH (Qmax x y)) as [H | H]; [|auto].
  rewrite <- H. destruct (Qmax_cases x y) as [-> | ->]; auto.
Qed.

Lemma fold_Qmax_ge (l : list Q) : forall x y,
  In y (x :: l) -> y <= fold_left Qmax l x.
Proof.
  induction l as [|z l IH]; intros x y Hin; simpl.
  - destruct Hin as [-> | []]. apply Qle_refl.
  - destruct Hin as [-> | [-> | Hin]].
    + apply Qle_trans with (Qmax y z); [apply Q.le_max_l | apply IH; now left].
    + apply Qle_trans with (Qmax x y); [apply Q.le_max_r | apply IH; now left].
    + apply IH. now right.
Qed.

Lemma series_max_Fin (column : list Q) m :
  series_max column = Fin m ->
  In m column /\ forall y, In y column -> y <= m.
Proof.
  destruct column as [|x rest]; simpl; [discriminate|].
  intros H. injection H as <-. split.
  - apply fold_Qmax_In.
  - intros y Hy. now apply fold_Qmax_ge.
Qed.

Lemma series_max_nonempty (column : list Q) :
  column <> [] -> exists m, series_max column = Fin m.
Proof.
  destruct column as [|x rest]; [contradiction | simpl; eauto].
Qed.

Lemma fdiv_by_positive x m : 0 < m -> fdiv x (Fin m) = Fin (x / m).
Proof.
  intros H. unfold fdiv. apply Qgt_alt in H. now rewrite H.
Qed.

Lemma fdiv_zero_by_zero x m : m == 0 -> x == 0 -> fdiv x (Fin m) = NaN.
Proof.
  intros Hm Hx. unfold fdiv. apply Qeq_alt in Hm, Hx. now rewrite Hm, Hx.
Qed.

Lemma scaled_ratio_bounds x m :
  0 <= x -> x <= m -> 0 < m -> 0 <= x / m * 15 <= 15.
Proof.
  intros H0 Hle Hm.
  assert (Hlo : 0 <= x / m) by (apply Qle_shift_div_l; [assumption | lra]).
  assert (Hhi : x / m <= 1) by (apply Qle_shift_div_r; [assumption | lra]).
  lra.
Qed.

Lemma scaled_ratio_of_max x m : 0 < m -> x == m -> x / m * 15 == 15.
Proof.
  intros Hm Hx. rewrite Hx. unfold Qdiv. rewrite Qmult_inv_r by lra. lra.
Qed.

Lemma add_SIZE_In joined p :
  In p (add_SIZE joined) <->
  exists j, In j joined /\
    p = mkPoint (jID j) (jVALUE j) (jLAT j) (jLON j)
          (fmul_pos (fdiv (Qabs (jVALUE j)) (series_max (map (fun r => Qabs (jVALUE r)) joined))) 15).
Proof.
  unfold add_SIZE. rewrite in_map_iff. split; intros [j [H1 H2]]; exists j; auto.
Qed.

(** C4: for a joined table whose largest absolute mean [m] is positive, the
    size of every point is its absolute mean divided by [m] and multiplied by
    fifteen; it lies between 0 and 15; a point whose absolute mean is [m] has
    size 15, and there is such a point. *)
Theorem marker_size_is_normalised joined m :
  series_max (map (fun j => Qabs (jVALUE j)) joined) = Fin m ->
  0 < m ->
  (forall j, In j joined -> Qabs (jVALUE j) <= m) /\
  add_SIZE joined =
    map (fun j => mkPoint (jID j) (jVALUE j) (jLAT j) (jLON j)
                    (Fin (Qabs (jVALUE j) / m * 15))) joined /\
  (forall p, In p (add_SIZE joined) ->
     exists s, pSIZE p = Fin s /\
               s == Qabs (pVALUE p) / m * 15 /\
               0 <= s <= 15 /\
               (Qabs (pVALUE p) == m -> s == 15)) /\
  (exists p, In p (add_SIZE joined) /\ Qabs (pVALUE p) = m /\
             exists s, pSIZE p = Fin s /\ s == 15).
Proof.
  intros Hmax Hm.
  destruct (series_max_Fin _ _ Hmax) as [Hin Hle].
  assert (Hall : forall j, In j joined -> Qabs (jVALUE j) <= m).
  { intros j Hj. apply Hle. apply in_map_iff. eauto. }
  assert (Hpt : forall p, In p (add_SIZE joined) ->
            exists j, In j joined /\
              p = mkPoint (jID j) (jVALUE j) (jLAT j) (jLON j) (Fin (Qabs (jVALUE j) / m * 15))).
  { intros p Hp. apply add_SIZE_In in Hp as [j [Hj ->]]. exists j. split; [assumption|].
    rewrite Hmax, fdiv_by_positive by assumption. reflexivity. }
  split; [exact Hall|]. split; [|split].
  - unfold add_SIZE. rewrite Hmax. apply map_ext. intros j.
    now rewrite fdiv_by_positive.
  - intros p Hp. destruct (Hpt p Hp) as [j [Hj ->]]. simpl.
    eexists. split; [reflexivity|]. split; [reflexivity|]. split.
    + apply scaled_ratio_bounds; [apply Qabs_nonneg | now apply Hall | assumption].
    + now apply scaled_ratio_of_max.
  - apply in_map_iff in Hin as [j [Hjm Hj]].
    exists (mkPoint (jID j) (jVALUE j) (jLAT j) (jLON j) (Fin (Qabs (jVALUE j) / m * 15))).
    split; [|split].
    + apply add_SIZE_In. exists j. split; [assumption|].
      rewrite Hmax, fdiv_by_positive by assumption. reflexivity.
    + exact Hjm.
    + simpl. eexists. split; [reflexivity|].
      apply scaled_ratio_of_max; [assumption | now rewrite Hjm].
Qed.

(** An empty joined table has an empty SIZE column, and a joined table whose
    means are all zero has NaN in every SIZE. *)
Lemma add_SIZE_nil : add_SIZE [] = [].
Proof. reflexivity. Qed.


Local Close Scope Q_scope.

(** ** The file system *)

Lemma files_lookup_insert_eq (fs : FileSystem) path f : <[path := f]> fs !! path = Some f.
Proof. apply (lookup_insert_eq (M:=gmap string)). Qed.


(** ** The runs of [fetch_and_process_data] *)

Ltac run_monad :=
  unfold try_except, bind, lift, ret, raise, os_path_exists, print, requests_get,
    raise_for_status, read_csv_gz, to_csv, fig_show; simpl.

Section RunFacts.

Variable py_float : string -> option pyfloat.
Variable to_datetime : string -> option Date.
Variable scatter_mapbox_accepts : list Point -> bool.

Let fetch := fetch_and_process_data py_float to_datetime.

Lemma parse_inventory_raises_ValueError cc inventory_data e :
  parse_inventory py_float cc inventory_data = inl e -> is_RequestException e = false.
Proof.
  unfold parse_inventory. generalize (@nil Station).
  induction (splitlines inventory_data) as [|line rest IH]; intros stations H; simpl in H;
    [discriminate|].
  destruct (station_line py_float cc stations line) as [e'|stations'] eqn:Hline; simpl in H.
  - injection H as <-. unfold station_line, float in Hline.
    destruct (py_float (slice 12 20 line)); simpl in Hline;
      [destruct (py_float (slice 21 30 line)); simpl in Hline|];
      try discriminate; injection Hline as <-; reflexivity.
  - eapply IH; eassumption.
Qed.

Lemma convert_DATE_raises_ValueError {V : Type} (rows : list (Row string V)) e :
  convert_DATE to_datetime rows = inl e -> is_RequestException e = false.
Proof.
  induction rows as [|r rest IH]; simpl; [discriminate|].
  destruct (to_datetime (DATE r)); [|intros H; injection H as <-; reflexivity].
  destruct (convert_DATE to_datetime rest); simpl; [|discriminate].
  intros H. injection H as <-. now apply IH.
Qed.

Lemma process_raises_ValueError stations data e :
  process to_datetime stations data = inl e -> is_RequestException e = false.
Proof.
  unfold process, aggregate.
  destruct (convert_DATE to_datetime _) as [e'|rows] eqn:Hd; simpl; [|discriminate].
  intros H. injection H as <-. eapply convert_DATE_raises_ValueError; eassumption.
Qed.

(** The cache gate. *)
Lemma run_cached year cc w :
  is_Some (files w !! output_name cc year) ->
  fetch year cc w = (printed (AlreadyExists cc year) w, inr (Some (output_name cc year))).
Proof.
  intros H. unfold fetch, fetch_and_process_data. run_monad.
  now rewrite (bool_decide_eq_true_2 _ H).
Qed.

(** The inventory cannot be fetched. *)
Lemma run_inventory_fetch_fails year cc w :
  files w !! output_name cc year = None ->
  fetch_fails w inventory_url = true ->
  fetch year cc w =
    (printed (ErrorFetching RequestException) (requesting inventory_url w), inr None).
Proof.
  intros Hmiss Hfail. unfold fetch, fetch_and_process_data. run_monad.
  rewrite Hmiss. unfold fetch_fails, error_status in Hfail.
  rewrite bool_decide_eq_false_2 by (intros [x Hx]; discriminate).
  destruct (internet w inventory_url) as [r|]; [|reflexivity].
  simpl. rewrite Hfail. run_monad. reflexivity.
Qed.

(** The inventory does not parse. *)
Lemma run_inventory_parse_fails year cc w r e :
  files w !! output_name cc year = None ->
  fetch_gives w inventory_url r ->
  parse_inventory py_float cc (text r) = inl e ->
  fetch year cc w =
    (printed (ErrorProcessing e) (requesting inventory_url w), inr None).
Proof.
  intros Hmiss [Hr Hst] Hparse. unfold fetch, fetch_and_process_data. run_monad.
  rewrite Hmiss. unfold error_status in Hst.
  rewrite bool_decide_eq_false_2 by (intros [x Hx]; discriminate).
  rewrite Hr. simpl. rewrite Hst, Hparse. run_monad.
  now rewrite (parse_inventory_raises_ValueError _ _ _ Hparse).
Qed.

(** The archive cannot be fetched. *)
Lemma run_archive_fetch_fails year cc w r stations :
  files w !! output_name cc year = None ->
  fetch_gives w inventory_url r ->
  parse_inventory py_float cc (text r) = inr stations ->
  fetch_fails w (ghcn_url year) = true ->
  fetch year cc w =
    (printed (ErrorFetching RequestException)
       (requesting (ghcn_url year)
          (printed (FoundStations (length stations) cc) (requesting inventory_url w))),
     inr None).
Proof.
  intros Hmiss [Hr Hst] Hparse Hfail. unfold fetch, fetch_and_process_data. run_monad.
  rewrite Hmiss. unfold fetch_fails, error_status in *.
  rewrite bool_decide_eq_false_2 by (intros [x Hx]; discriminate).
  rewrite Hr. simpl. rewrite Hst, Hparse. run_monad.
  destruct (internet w (ghcn_url year)) as [r2|]; [|reflexivity].
  simpl. rewrite Hfail. run_monad. reflexivity.
Qed.

(** The archive is fetched; [process] decides. *)
Lemma run_archive_fetched year cc w r stations r2 :
  files w !! output_name cc year = None ->
  fetch_gives w inventory_url r ->
  parse_inventory py_float cc (text r) = inr stations ->
  fetch_gives w (ghcn_url year) r2 ->
  let w2 := requesting (ghcn_url year)
              (printed (FoundStations (length stations) cc) (requesting inventory_url w)) in
  fetch year cc w =
    match content r2 with
    | None => (printed (ErrorProcessing ReadError) w2, inr None)
    | Some data =>
        match process to_datetime stations data with
        | inl e => (printed (ErrorProcessing e) w2, inr None)
        | inr frame =>
            if refuses (files w) (output_name cc year)
            then (printed (ErrorProcessing (OSError (output_name cc year))) w2, inr None)
            else
              (printed (ProcessedAndSaved (output_name cc year))
                 (written (output_name cc year) (Csv frame) w2),
               inr (Some (output_name cc year)))
        end
    end.
Proof.
  intros Hmiss [Hr Hst] Hparse [Hr2 Hst2]. unfold fetch, fetch_and_process_data. run_monad.
  rewrite Hmiss. unfold error_status in *.
  rewrite bool_decide_eq_false_2 by (intros [x Hx]; discriminate).
  rewrite Hr. simpl. rewrite Hst, Hparse. run_monad. rewrite Hr2. simpl. rewrite Hst2.
  run_monad.
  destruct (content r2) as [data|]; run_monad; [|reflexivity].
  destruct (process to_datetime stations data) as [e|frame] eqn:Hp; run_monad.
  - now rewrite (process_raises_ValueError _ _ _ Hp).
  - destruct (refuses (files w) (output_name cc year)); reflexivity.
Qed.

Lemma fetch_fails_false w url :
  fetch_fails w url = false -> exists r, fetch_gives w url r.
Proof.
  unfold fetch_fails, fetch_gives. destruct (internet w url) as [r|]; [eauto | discriminate].
Qed.

(** A run that returns a path returns the name of the artifact, and the
    artifact is there afterwards. *)
Lemma run_returns_artifact year cc w w1 path :
  fetch year cc w = (w1, inr (Some path)) ->
  path = output_name cc year /\ is_Some (files w1 !! path).
Proof.
  intros Hrun.
  destruct (files w !! output_name cc year) as [f|] eqn:Hfile.
  - rewrite run_cached in Hrun by (rewrite Hfile; eauto).
    injection Hrun as <- <-. simpl. rewrite Hfile. eauto.
  - destruct (fetch_fails w inventory_url) eqn:Hinv.
    { rewrite run_inventory_fetch_fails in Hrun by assumption. discriminate. }
    apply fetch_fails_false in Hinv as [r Hr].
    destruct (parse_inventory py_float cc (text r)) as [e|stations] eqn:Hparse.
    { rewrite (run_inventory_parse_fails _ _ _ _ _ Hfile Hr Hparse) in Hrun. discriminate. }
    destruct (fetch_fails w (ghcn_url year)) eqn:Har.
    { rewrite (run_archive_fetch_fails _ _ _ _ _ Hfile Hr Hparse Har) in Hrun. discriminate. }
    apply fetch_fails_false in Har as [r2 Hr2].
    rewrite (run_archive_fetched _ _ _ _ _ _ Hfile Hr Hparse Hr2) in Hrun.
    destruct (content r2) as [data|]; [|discriminate].
    destruct (process to_datetime stations data) as [e|frame]; [discriminate|].
    destruct (refuses (files w) (output_name cc year)); [discriminate|].
    injection Hrun as <- <-. split; [reflexivity|].
    simpl. rewrite files_lookup_insert_eq. eauto.
Qed.

(** C8: when the artifact of the country and the year exists, the run prints
    one line and returns its path, without a request and without touching a
    file; and after any run that returned a path, a second run returns the
    same path and leaves the files, the artifact among them, and the requests
    made as they were. *)
Theorem cached_run_skips_the_pipeline year cc w :
  (is_Some (files w !! output_name cc year) ->
   exists w',
     fetch year cc w = (w', inr (Some (output_name cc year))) /\
     files w' = files w /\ requested w' = requested w /\ shown w' = shown w /\
     stdout w' = stdout w ++ [AlreadyExists cc year]) /\
  (forall w1 path,
     fetch year cc w = (w1, inr (Some path)) ->
     exists w2,
       fetch year cc w1 = (w2, inr (Some path)) /\
       files w2 = files w1 /\ requested w2 = requested w1 /\
       files w2 !! path = files w1 !! path /\ is_Some (files w1 !! path)).
Proof.
  split.
  - intros H. eexists. split; [apply run_cached; assumption|]. simpl. auto.
  - intros w1 path Hrun.
    apply run_returns_artifact in Hrun as [-> Hthere].
    eexists. split; [apply run_cached; assumption|]. simpl. auto.
Qed.

(** Whatever it meets, [visualize_data] prints a line or shows a figure. *)
Lemma visualize_data_leaves_a_trace csv_file cc year w :
  let w' := fst (visualize_data scatter_mapbox_accepts csv_file cc year w) in
  length (stdout w') + length (shown w') = S (length (stdout w) + length (shown w)).
Proof.
  unfold visualize_data, scatter_mapbox, read_csv. run_monad.
  destruct (bool_decide (is_Some (files w !! csv_file))); simpl.
  - destruct (files w !! csv_file) as [[rows|bytes]|]; simpl;
      try (rewrite length_app; simpl; lia).
    destruct (scatter_mapbox_accepts rows); run_monad; rewrite length_app; simpl; lia.
  - rewrite length_app. simpl. lia.
Qed.

(** C9: on a run that has to fetch, when the request for the inventory or the
    request for the observation archive raises, [fetch_and_process_data]
    returns None after printing the fetch error, no file is written, and
    [main] ends in the very world [fetch_and_process_data] left: it does not
    call [visualize_data], and nothing is shown. *)
Theorem fetch_failure_gives_None_and_no_plot year cc w :
  files w !! output_name cc year = None ->
  (fetch_fails w inventory_url = true \/
   exists r stations,
     fetch_gives w inventory_url r /\
     parse_inventory py_float cc (text r) = inr stations /\
     fetch_fails w (ghcn_url year) = true) ->
  exists w',
    fetch year cc w = (w', inr None) /\
    files w' = files w /\
    shown w' = shown w /\
    (exists earlier, stdout w' = stdout w ++ earlier ++ [ErrorFetching RequestException]) /\
    main py_float to_datetime scatter_mapbox_accepts year cc w = (w', inr tt).
Proof.
  intros Hmiss [Hinv | [r [stations [Hr [Hparse Har]]]]].
  - pose proof (run_inventory_fetch_fails year cc w Hmiss Hinv) as Hrun.
    eexists. split; [exact Hrun|]. repeat split.
    + exists []. reflexivity.
    + unfold main, bind. fold fetch. rewrite Hrun. reflexivity.
  - pose proof (run_archive_fetch_fails year cc w r stations Hmiss Hr Hparse Har) as Hrun.
    eexists. split; [exact Hrun|]. repeat split.
    + exists [FoundStations (length stations) cc]. simpl. now rewrite <- app_assoc.
    + unfold main, bind. fold fetch. rewrite Hrun. reflexivity.
Qed.

(** C2, as the code has it: a line whose latitude or longitude field [float]
    rejects, of whatever country, makes the parser raise ValueError, and the
    run that fetched the inventory prints the processing error, writes no
    file, makes no further request and returns None; the parser returns the
    records of the lines of the country, in order, exactly when [float]
    accepts both fields of every line. *)
Theorem malformed_inventory_line_aborts_the_run year cc w r :
  files w !! output_name cc year = None ->
  fetch_gives w inventory_url r ->
  ((exists line, In line (splitlines (text r)) /\ ~ line_parses py_float line) ->
   exists what,
     parse_inventory py_float cc (text r) = inl (ValueError what) /\
     fetch year cc w =
       (printed (ErrorProcessing (ValueError what)) (requesting inventory_url w), inr None) /\
     files (fst (fetch year cc w)) = files w) /\
  (Forall (line_parses py_float) (splitlines (text r)) ->
   exists stations,
     parse_inventory py_float cc (text r) = inr stations /\
     Forall2 (station_of py_float) (country_lines cc (splitlines (text r))) stations).
Proof.
  intros Hmiss Hr. split.
  - intros [line [Hin Hbad]].
    destruct (station_loop_inl py_float cc _ [] line Hin Hbad) as [what Hw].
    exists what. fold (parse_inventory py_float cc (text r)) in Hw.
    rewrite (run_inventory_parse_fails _ _ _ _ _ Hmiss Hr Hw). auto.
  - intros Hall.
    destruct (station_loop_total py_float cc _ [] Hall) as [stations Hs].
    exists stations. split; [exact Hs|].
    apply station_loop_inr in Hs as [_ [new [-> Hnew]]]. exact Hnew.
Qed.

Lemma process_of_aggregate stations data avg :
  aggregate to_datetime (map (fun st => fst (fst st)) stations) data = inr avg ->
  process to_datetime stations data = inr (add_SIZE (merge avg stations)).
Proof. unfold process. now intros ->. Qed.

(** C3, as the code has it: the dates of the retained rows are parsed as one
    column, so a retained row whose DATE [to_datetime] rejects makes the run
    print the processing error, write no file and return None, the rows with
    good dates being lost with it; a bad DATE in a row the filter drops is
    never parsed, and when the DATE of every retained row parses the table
    is aggregated, and it is saved and its path returned if the artifact can
    be written; if it cannot, the run prints the processing error, writes
    nothing and returns None. *)
Theorem malformed_DATE_aborts_the_run year cc w r stations r2 data :
  files w !! output_name cc year = None ->
  fetch_gives w inventory_url r ->
  parse_inventory py_float cc (text r) = inr stations ->
  fetch_gives w (ghcn_url year) r2 ->
  content r2 = Some data ->
  let station_ids := map (fun st => fst (fst st)) stations in
  let w2 := requesting (ghcn_url year)
              (printed (FoundStations (length stations) cc) (requesting inventory_url w)) in
  ((exists row, In row data /\ retained station_ids row /\ to_datetime (DATE row) = None) ->
   exists what,
     process to_datetime stations data = inl (ValueError what) /\
     fetch year cc w = (printed (ErrorProcessing (ValueError what)) w2, inr None) /\
     files (fst (fetch year cc w)) = files w) /\
  ((forall row, In row data -> retained station_ids row -> is_Some (to_datetime (DATE row))) ->
   exists frame,
     process to_datetime stations data = inr frame /\
     (refuses (files w) (output_name cc year) = false ->
      fetch year cc w =
        (printed (ProcessedAndSaved (output_name cc year))
           (written (output_name cc year) (Csv frame) w2),
         inr (Some (output_name cc year)))) /\
     (refuses (files w) (output_name cc year) = true ->
      fetch year cc w =
        (printed (ErrorProcessing (OSError (output_name cc year))) w2, inr None))).
Proof.
  intros Hmiss Hr Hparse Hr2 Hdata station_ids w2.
  pose proof (run_archive_fetched year cc w r stations r2 Hmiss Hr Hparse Hr2) as Hrun.
  simpl in Hrun. rewrite Hdata in Hrun. fold w2 in Hrun. split.
  - intros [row [Hin [Hret Hbad]]].
    destruct (aggregate_inl to_datetime station_ids data row Hin Hret Hbad) as [what Hagg].
    assert (Hp : process to_datetime stations data = inl (ValueError what)).
    { unfold process. fold station_ids. now rewrite Hagg. }
    exists what. rewrite Hp in Hrun. rewrite Hrun. auto.
  - intros Hgood.
    destruct (aggregate_total to_datetime station_ids data Hgood) as [avg Hagg].
    pose proof (process_of_aggregate stations data avg Hagg) as Hp.
    eexists. split; [exact Hp|]. rewrite Hp in Hrun.
    split; intros Hw; now rewrite Hw in Hrun.
Qed.


Lemma same_but_DATE_select station_ids d1 d2 :
  Forall2 same_but_DATE d1 d2 ->
  map (fun r => (ID r, VALUE r)) (convert_VALUE (select_rows station_ids d1)) =
  map (fun r => (ID r, VALUE r)) (convert_VALUE (select_rows station_ids d2)).
Proof.
  unfold select_rows, convert_VALUE.
  induction 1 as [|r1 r2 d1 d2 Hr _ IH]; [reflexivity|].
  destruct Hr as [Hid [Hel [Hv _]]]. cbn [filter]. rewrite Hid, Hel.
  destruct (isin (ID r2) station_ids && isin (ELEMENT r2) TEMPERATURE_ELEMENTS);
    [|exact IH].
  cbn [map]. rewrite IH. simpl. now rewrite Hid, Hv.
Qed.

Lemma same_but_DATE_aggregate station_ids d1 d2 :
  Forall2 same_but_DATE d1 d2 ->
  Forall (fun r => is_Some (to_datetime (DATE r))) d1 ->
  Forall (fun r => is_Some (to_datetime (DATE r))) d2 ->
  exists avg,
    aggregate to_datetime station_ids d1 = inr avg /\
    aggregate to_datetime station_ids d2 = inr avg.
Proof.
  intros Hsame H1 H2.
  assert (Hc : forall d, Forall (fun r : Obs => is_Some (to_datetime (DATE r))) d ->
            exists rows', convert_DATE to_datetime (convert_VALUE (select_rows station_ids d))
                          = inr rows').
  { intros d Hd. apply convert_DATE_total. apply retained_dates_convert.
    intros row Hin _. rewrite List.Forall_forall in Hd. now apply Hd. }
  destruct (Hc d1 H1) as [c1 Hc1]. destruct (Hc d2 H2) as [c2 Hc2].
  unfold aggregate. rewrite Hc1, Hc2. simpl.
  exists (groupby_mean c1). split; [reflexivity|]. f_equal.
  apply groupby_mean_pairs.
  rewrite (convert_DATE_inr _ _ _ Hc1), (convert_DATE_inr _ _ _ Hc2).
  symmetry. now apply same_but_DATE_select.
Qed.

Lemma same_but_DATE_process stations d1 d2 :
  Forall2 same_but_DATE d1 d2 ->
  Forall (fun r => is_Some (to_datetime (DATE r))) d1 ->
  Forall (fun r => is_Some (to_datetime (DATE r))) d2 ->
  exists frame,
    process to_datetime stations d1 = inr frame /\
    process to_datetime stations d2 = inr frame.
Proof.
  intros Hsame H1 H2.
  destruct (same_but_DATE_aggregate (map (fun st => fst (fst st)) stations) d1 d2 Hsame H1 H2)
    as [avg [Ha1 Ha2]].
  exists (add_SIZE (merge avg stations)).
  split; now apply process_of_aggregate.
Qed.

(** Two runs that agree on the files and on the inventory answer, and meet
    in the archive two answers of the same status whose tables give the same
    saved table. *)
Lemma runs_agree year cc w1 w2 r1 r2 d1 d2 :
  files w1 = files w2 ->
  internet w1 inventory_url = internet w2 inventory_url ->
  internet w1 (ghcn_url year) = Some r1 ->
  internet w2 (ghcn_url year) = Some r2 ->
  status_code r1 = status_code r2 ->
  content r1 = Some d1 ->
  content r2 = Some d2 ->
  (forall stations, process to_datetime stations d1 = process to_datetime stations d2) ->
  snd (fetch year cc w1) = snd (fetch year cc w2) /\
  files (fst (fetch year cc w1)) = files (fst (fetch year cc w2)).
Proof.
  intros Hfiles Hinv Hg1 Hg2 Hstatus Hc1 Hc2 Hproc.
  destruct (files w1 !! output_name cc year) as [f|] eqn:Hf1.
  - rewrite !run_cached; [simpl; auto | rewrite <- Hfiles, Hf1; eauto | rewrite Hf1; eauto].
  - assert (Hf2 : files w2 !! output_name cc year = None) by now rewrite <- Hfiles.
    destruct (fetch_fails w1 inventory_url) eqn:Hi1.
    { assert (Hi2 : fetch_fails w2 inventory_url = true)
        by (unfold fetch_fails in *; now rewrite <- Hinv).
      rewrite !run_inventory_fetch_fails by assumption. simpl. auto. }
    apply fetch_fails_false in Hi1 as [r Hr1].
    assert (Hr2 : fetch_gives w2 inventory_url r)
      by (unfold fetch_gives in *; now rewrite <- Hinv).
    destruct (parse_inventory py_float cc (text r)) as [e|stations] eqn:Hparse.
    { rewrite (run_inventory_parse_fails _ _ _ _ _ Hf1 Hr1 Hparse),
              (run_inventory_parse_fails _ _ _ _ _ Hf2 Hr2 Hparse). simpl. auto. }
    assert (Hes : error_status r2 = error_status r1)
      by (unfold error_status; now rewrite Hstatus).
    destruct (error_status r1) eqn:He1.
    { assert (Ha1 : fetch_fails w1 (ghcn_url year) = true)
        by (unfold fetch_fails; now rewrite Hg1).
      assert (Ha2 : fetch_fails w2 (ghcn_url year) = true)
        by (unfold fetch_fails; now rewrite Hg2).
      rewrite (run_archive_fetch_fails _ _ _ _ _ Hf1 Hr1 Hparse Ha1),
              (run_archive_fetch_fails _ _ _ _ _ Hf2 Hr2 Hparse Ha2). simpl. auto. }
    assert (Ha1 : fetch_gives w1 (ghcn_url year) r1) by (split; assumption).
    assert (Ha2 : fetch_gives w2 (ghcn_url year) r2) by (split; assumption).
    rewrite (run_archive_fetched _ _ _ _ _ _ Hf1 Hr1 Hparse Ha1),
            (run_archive_fetched _ _ _ _ _ _ Hf2 Hr2 Hparse Ha2).
    rewrite Hc1, Hc2, Hproc, Hfiles.
    destruct (process to_datetime stations d2) as [e|frame]; simpl; [auto|].
    destruct (refuses (files w2) (output_name cc year)); simpl; rewrite ?Hfiles; auto.
Qed.

(** C10: two observation tables that differ at most in their DATE values, all
    of which parse, give the same table of means and the same saved table;
    and two runs that meet such tables in the archive, from the same files
    and the same inventory answer, return the same value and leave the same
    files. *)
Theorem DATE_values_do_not_reach_the_artifact stations d1 d2 :
  Forall2 same_but_DATE d1 d2 ->
  Forall (fun r => is_Some (to_datetime (DATE r))) d1 ->
  Forall (fun r => is_Some (to_datetime (DATE r))) d2 ->
  (exists avg,
     aggregate to_datetime (map (fun st => fst (fst st)) stations) d1 = inr avg /\
     aggregate to_datetime (map (fun st => fst (fst st)) stations) d2 = inr avg) /\
  (exists frame,
     process to_datetime stations d1 = inr frame /\
     process to_datetime stations d2 = inr frame) /\
  (forall year cc w1 w2 r1 r2,
     files w1 = files w2 ->
     internet w1 inventory_url = internet w2 inventory_url ->
     internet w1 (ghcn_url year) = Some r1 ->
     internet w2 (ghcn_url year) = Some r2 ->
     status_code r1 = status_code r2 ->
     content r1 = Some d1 ->
     content r2 = Some d2 ->
     snd (fetch year cc w1) = snd (fetch year cc w2) /\
     files (fst (fetch year cc w1)) = files (fst (fetch year cc w2))).
Proof.
  intros Hsame H1 H2. split; [|split].
  - now apply same_but_DATE_aggregate.
  - now apply same_but_DATE_process.
  - intros year cc w1 w2 r1 r2 Hfiles Hinv Hg1 Hg2 Hstatus Hc1 Hc2.
    apply (runs_agree year cc w1 w2 r1 r2 d1 d2); try assumption.
    intros sts. destruct (same_but_DATE_process sts d1 d2 Hsame H1 H2) as [frame [-> ->]].
    reflexivity.
Qed.

End RunFacts.

(** ** The pipeline on examples *)

Import Instances.

(** C5, counterexample: the tenths 21, 25 and 23 of Oslo give the mean
    2.3000000000000003, the binary64 next above 2.3 (which is what
    23 / 10.0 is), and not 2.3; and the raw values 2^53 and 2^53 + 1 have
    the same converted value. *)
Lemma binary64_mean_of_21_25_23_is_not_2_3 :
  aggregate64 date_Ymd (map (fun st => fst (fst st)) stations_NO) table_ok
    = inr [("NO000001020", PrimFloat.next_up (tenths_to_celsius64 23));
           ("NO000050540", tenths_to_celsius64 (-46))] /\
  mean64 (map tenths_to_celsius64 [21; 25; 23]%Z)
    = PrimFloat.next_up (tenths_to_celsius64 23) /\
  PrimFloat.eqb (mean64 (map tenths_to_celsius64 [21; 25; 23]%Z))
                (tenths_to_celsius64 23) = false /\
  tenths_to_celsius64 (2 ^ 53 + 1) = tenths_to_celsius64 (2 ^ 53).
Proof. repeat split; vm_compute; reflexivity. Qed.

(** In a working directory where nothing can be written, the run that
    fetched and processed everything prints the processing error, returns
    None and leaves no file. *)
Example refused_write_returns_None :
  snd (run 2020 "NO" (read_only (online 2020 inventory_ok (Some table_ok)))) = inr None /\
  contents (files (fst (run 2020 "NO" (read_only (online 2020 inventory_ok (Some table_ok))))))
    = ∅ /\
  stdout (fst (run 2020 "NO" (read_only (online 2020 inventory_ok (Some table_ok)))))
    = [FoundStations 2 "NO"; ErrorProcessing (OSError artifact_NO_2020)].
Proof. repeat split; vm_compute; reflexivity. Qed.

(** Absolute means 1, 2 and 4 give the sizes 3.75, 7.5 and 15. *)
Example sizes_of_1_2_4 :
  Forall2 size_is [3.75; 7.5; 15]%Q (map pSIZE (add_SIZE joined_1_2_4)).
Proof. repeat constructor. Qed.


(** C2, counterexample: one line of another country with a latitude that is
    no number, between two good lines of NO: the parser returns no station
    at all, and the run returns None and writes nothing. *)
Lemma one_bad_line_fails_the_run :
  In uppsala_bad (splitlines inventory_bad) /\
  decimal_float (slice 12 20 uppsala_bad) = None /\
  parse_inventory decimal_float "NO" inventory_bad = inl (ValueError " N/A    ") /\
  snd (run 2020 "NO" (online 2020 inventory_bad (Some table_ok))) = inr None /\
  files (fst (run 2020 "NO" (online 2020 inventory_bad (Some table_ok)))) = ∅.
Proof.
  split; [vm_compute; auto|].
  repeat split; vm_compute; reflexivity.
Qed.

(** C3, counterexample: one retained row with the DATE 2020-01-02 among rows
    with good dates: nothing is aggregated, the run returns None and writes
    nothing. *)
Lemma one_bad_DATE_fails_the_run :
  date_Ymd "2020-01-02" = None /\
  date_Ymd "20200101" <> None /\
  process date_Ymd stations_NO table_bad_date = inl (ValueError "2020-01-02") /\
  snd (run 2020 "NO" (online 2020 inventory_ok (Some table_bad_date))) = inr None /\
  files (fst (run 2020 "NO" (online 2020 inventory_ok (Some table_bad_date)))) = ∅.
Proof.
  split; [reflexivity|]. split; [discriminate|].
  repeat split; vm_compute; reflexivity.
Qed.

(** ** The theorems at the examples *)

Lemma parse_inventory_country_prefix_in_order_at_NO :
  exists stations,
    parse_inventory decimal_float "NO" inventory_ok = inr stations /\
    Forall (fun st => slice 0 2 (fst (fst st)) = "NO") stations /\
    Forall2 (station_of decimal_float) (country_lines "NO" (splitlines inventory_ok)) stations.
Proof.
  apply (parse_inventory_country_prefix_in_order decimal_float "NO" inventory_ok).
  change (splitlines inventory_ok) with [oslo; uppsala; bergen].
  repeat (constructor; [split; vm_compute; eexists; reflexivity|]). constructor.
Defined.

Lemma malformed_inventory_line_aborts_the_run_at_NO :
  exists what,
    parse_inventory decimal_float "NO" inventory_bad = inl (ValueError what) /\
    run 2020 "NO" (online 2020 inventory_bad (Some table_ok)) =
      (printed (ErrorProcessing (ValueError what))
         (requesting inventory_url (online 2020 inventory_bad (Some table_ok))), inr None) /\
    files (fst (run 2020 "NO" (online 2020 inventory_bad (Some table_ok)))) = ∅.
Proof.
  destruct (malformed_inventory_line_aborts_the_run decimal_float date_Ymd 2020 "NO"
              (online 2020 inventory_bad (Some table_ok)) (answer inventory_bad))
    as [Hbad _].
  - vm_compute. reflexivity.
  - split; vm_compute; reflexivity.
  - apply Hbad. exists uppsala_bad. split.
    + vm_compute. auto.
    + intros [[x Hx] _]. vm_compute in Hx. discriminate.
Defined.

Lemma malformed_DATE_aborts_the_run_at_NO :
  exists what,
    process date_Ymd stations_NO table_bad_date = inl (ValueError what) /\
    snd (run 2020 "NO" (online 2020 inventory_ok (Some table_bad_date))) = inr None /\
    files (fst (run 2020 "NO" (online 2020 inventory_ok (Some table_bad_date)))) = ∅.
Proof.
  destruct (malformed_DATE_aborts_the_run decimal_float date_Ymd 2020 "NO"
              (online 2020 inventory_ok (Some table_bad_date))
              (answer inventory_ok) stations_NO (archive table_bad_date) table_bad_date)
    as [Hbad _].
  - vm_compute. reflexivity.
  - split; vm_compute; reflexivity.
  - vm_compute. reflexivity.
  - split; vm_compute; reflexivity.
  - reflexivity.
  - destruct Hbad as [what [Hp [Hrun Hfiles]]].
    + exists (obs "NO000001020" "2020-01-02" "TMAX" 25).
      split; [vm_compute; auto|]. split; [|reflexivity].
      split; vm_compute; auto.
    + exists what. split; [exact Hp|]. split; [|exact Hfiles].
      unfold run. rewrite Hrun. reflexivity.
Defined.


Lemma marker_size_is_normalised_at_1_2_4 :
  (forall j, In j joined_1_2_4 -> (Qabs (jVALUE j) <= 4)%Q) /\
  add_SIZE joined_1_2_4 =
    map (fun j => mkPoint (jID j) (jVALUE j) (jLAT j) (jLON j)
                    (Fin (Qabs (jVALUE j) / 4 * 15))) joined_1_2_4 /\
  (forall p, In p (add_SIZE joined_1_2_4) ->
     exists s, pSIZE p = Fin s /\
               (s == Qabs (pVALUE p) / 4 * 15)%Q /\
               (0 <= s <= 15)%Q /\
               (Qabs (pVALUE p) == 4 -> s == 15)%Q) /\
  (exists p, In p (add_SIZE joined_1_2_4) /\ Qabs (pVALUE p) = 4%Q /\
             exists s, pSIZE p = Fin s /\ (s == 15)%Q).
Proof.
  apply (marker_size_is_normalised joined_1_2_4 4%Q).
  - vm_compute. reflexivity.
  - reflexivity.
Defined.

Lemma station_mean_is_the_binary64_mean_at_NO :
  let station_ids := map (fun st => fst (fst st)) stations_NO in
  map VALUE (convert_VALUE64 (select_rows station_ids table_ok)) =
    map (fun r => PrimFloat.div (float_of_Z (VALUE r)) (float_of_Z 10))
        (select_rows station_ids table_ok) /\
  exists avg,
    aggregate64 date_Ymd station_ids table_ok = inr avg /\
    (forall id m,
       In (id, m) avg <->
       let vs := celsius64_of id station_ids table_ok in
       vs <> [] /\
       m = PrimFloat.div (kahan_sum vs) (float_of_Z (Z.of_nat (length vs)))) /\
    (forall id,
       (forall r, In r (select_rows station_ids table_ok) -> ID r <> id) ->
       forall m, ~ In (id, m) avg).
Proof.
  apply (station_mean_is_the_binary64_mean date_Ymd
           (map (fun st => fst (fst st)) stations_NO) table_ok).
  intros r Hin _.
  repeat (destruct Hin as [<- | Hin]; [vm_compute; eexists; reflexivity|]).
  destruct Hin.
Defined.

Lemma filter_keeps_requested_temperature_rows_at_NO :
  aggregate date_Ymd ["NO000001020"; "NO000050540"] table_ok =
  aggregate date_Ymd ["NO000001020"; "NO000050540"]
    ([obs "NO000001020" "20200101" "TMAX" 21] ++
     [obs "NO000001020" "20200102" "TMAX" 25;
      obs "SW000002450" "20200102" "TMIN" (-30);
      obs "NO000050540" "20200102" "TMIN" (-46);
      obs "NO000001020" "20200103" "TMAX" 23]).
Proof.
  destruct (filter_keeps_requested_temperature_rows date_Ymd
              ["NO000001020"; "NO000050540"] table_ok) as [_ Hdrop].
  apply (Hdrop _ (obs "NO000001020" "20200101" "PRCP" 50)).
  - reflexivity.
  - intros [_ [H | [H | H]]]; discriminate.
Defined.

Lemma cached_run_skips_the_pipeline_at_NO :
  exists w',
    run 2020 "NO" cached = (w', inr (Some (output_name "NO" 2020))) /\
    files w' = files cached /\ requested w' = requested cached /\
    shown w' = shown cached /\
    stdout w' = stdout cached ++ [AlreadyExists "NO" 2020].
Proof.
  destruct (cached_run_skips_the_pipeline decimal_float date_Ymd 2020 "NO" cached)
    as [Hhit _].
  apply Hhit. vm_compute. eexists. reflexivity.
Defined.

Lemma fetch_failure_gives_None_and_no_plot_at_NO :
  (exists w',
     run 2020 "NO" offline = (w', inr None) /\
     files w' = files offline /\
     shown w' = shown offline /\
     (exists earlier, stdout w' = stdout offline ++ earlier ++ [ErrorFetching RequestException]) /\
     main decimal_float date_Ymd finite_sizes 2020 "NO" offline = (w', inr tt)) /\
  (exists w',
     run 2020 "NO" archive_missing = (w', inr None) /\
     files w' = files archive_missing /\
     shown w' = shown archive_missing /\
     (exists earlier,
        stdout w' = stdout archive_missing ++ earlier ++ [ErrorFetching RequestException]) /\
     main decimal_float date_Ymd finite_sizes 2020 "NO" archive_missing = (w', inr tt)).
Proof.
  split.
  - apply (fetch_failure_gives_None_and_no_plot decimal_float date_Ymd finite_sizes
             2020 "NO" offline).
    + reflexivity.
    + left. reflexivity.
  - apply (fetch_failure_gives_None_and_no_plot decimal_float date_Ymd finite_sizes
             2020 "NO" archive_missing).
    + reflexivity.
    + right. exists (answer inventory_ok), stations_NO.
      split; [split; vm_compute; reflexivity|].
      split; vm_compute; reflexivity.
Defined.

Lemma DATE_values_do_not_reach_the_artifact_at_NO :
  exists frame,
    process date_Ymd stations_NO table_ok = inr frame /\
    process date_Ymd stations_NO table_other_dates = inr frame.
Proof.
  apply (DATE_values_do_not_reach_the_artifact decimal_float date_Ymd stations_NO
           table_ok table_other_dates).
  - repeat constructor.
  - repeat (constructor; [vm_compute; eexists; reflexivity|]). constructor.
  - repeat (constructor; [vm_compute; eexists; reflexivity|]). constructor.
Defined.

(** * Further properties of the program *)

(** ** Every run of [fetch_and_process_data] *)

Section EveryRun.

Variable py_float : string -> option pyfloat.
Variable to_datetime : string -> option Date.

Local Abbreviation fetch := (fetch_and_process_data py_float to_datetime).

(** The seven ways a run ends. *)
Lemma run_outcomes year cc w :
  let out := output_name cc year in
  let w1 := requesting inventory_url w in
  (exists f, files w !! out = Some f /\
             fetch year cc w = (printed (AlreadyExists cc year) w, inr (Some out))) \/
  (files w !! out = None /\
   ((fetch_fails w inventory_url = true /\
     fetch year cc w = (printed (ErrorFetching RequestException) w1, inr None)) \/
    (exists r, fetch_gives w inventory_url r /\
     ((exists e, parse_inventory py_float cc (text r) = inl e /\
                 fetch year cc w = (printed (ErrorProcessing e) w1, inr None)) \/
      (exists stations, parse_inventory py_float cc (text r) = inr stations /\
       exists w2,
         w2 = requesting (ghcn_url year) (printed (FoundStations (length stations) cc) w1) /\
         ((fetch_fails w (ghcn_url year) = true /\
           fetch year cc w = (printed (ErrorFetching RequestException) w2, inr None)) \/
          (exists r2, fetch_gives w (ghcn_url year) r2 /\
           ((content r2 = None /\
             fetch year cc w = (printed (ErrorProcessing ReadError) w2, inr None)) \/
            (exists data, content r2 = Some data /\
             ((exists e, process to_datetime stations data = inl e /\
                         fetch year cc w = (printed (ErrorProcessing e) w2, inr None)) \/
              (exists frame, process to_datetime stations data = inr frame /\
                 ((refuses (files w) out = true /\
                   fetch year cc w = (printed (ErrorProcessing (OSError out)) w2, inr None)) \/
                  (refuses (files w) out = false /\
                   fetch year cc w =
                     (printed (ProcessedAndSaved out) (written out (Csv frame) w2),
                      inr (Some out))))))))))))))).
Proof.
  intros out w1. subst out w1.
  destruct (files w !! output_name cc year) as [f|] eqn:Hfile.
  { left. exists f. split; [reflexivity|]. apply run_cached. rewrite Hfile. eauto. }
  right. split; [reflexivity|].
  destruct (fetch_fails w inventory_url) eqn:Hinv.
  { left. split; [reflexivity|]. now apply run_inventory_fetch_fails. }
  right. apply fetch_fails_false in Hinv as [r Hr]. exists r. split; [exact Hr|].
  destruct (parse_inventory py_float cc (text r)) as [e|stations] eqn:Hparse.
  { left. exists e. split; [reflexivity|]. now apply (run_inventory_parse_fails _ _ _ _ _ r). }
  right. exists stations. split; [reflexivity|]. eexists. split; [reflexivity|].
  destruct (fetch_fails w (ghcn_url year)) eqn:Har.
  { left. split; [reflexivity|]. now apply (run_archive_fetch_fails _ _ _ _ _ r). }
  right. apply fetch_fails_false in Har as [r2 Hr2]. exists r2. split; [exact Hr2|].
  pose proof (run_archive_fetched py_float to_datetime year cc w r stations r2
                Hfile Hr Hparse Hr2) as Hrun.
  simpl in Hrun.
  destruct (content r2) as [data|].
  2:{ left. split; [reflexivity | exact Hrun]. }
  right. exists data. split; [reflexivity|].
  destruct (process to_datetime stations data) as [e|frame].
  - left. exists e. split; [reflexivity | exact Hrun].
  - right. exists frame. split; [reflexivity|].
    destruct (refuses (files w) (output_name cc year)); [left | right]; auto.
Qed.

Ltac outcomes year cc w :=
  destruct (run_outcomes year cc w)
    as [[f [Hfile Hrun]] | [Hfile [[Hinv Hrun] | [r [Hr [[e [Hparse Hrun]] | [stations [Hparse [w2 [Hw2 [[Har Hrun] | [r2 [Hr2 [[Hcontent Hrun] | [data [Hcontent [[e [Hproc Hrun]] | [frame [Hproc [[Hrefuses Hrun] | [Hrefuses Hrun]]]]]]]]]]]]]]]]]]]]];
  try subst w2.

(** X1: for a year that [str] prints (one of at most 4300 digits; CPython
    from 3.11 on refuses a longer one at line 10, before the [try]),
    [fetch_and_process_data] lets no exception escape: whatever the files
    and the network hold, and whether or not the artifact can be written, it
    returns, and what it returns is None or the name of the artifact of the
    country and the year. *)
Theorem fetch_and_process_data_never_raises year cc w :
  (Z.abs year < 10 ^ 4300)%Z ->
  exists w' r,
    fetch year cc w = (w', inr r) /\
    (r = None \/ r = Some (output_name cc year)) /\
    internet w' = internet w /\ shown w' = shown w.
Proof.
  intros _.
  outcomes year cc w; rewrite Hrun; do 2 eexists; (split; [reflexivity|]); simpl; auto.
Qed.


(** X3: a run asks for nothing, for the inventory only, or for the inventory and
    then the archive of the year; it asks for nothing exactly when the
    artifact exists, and for the archive only after the inventory was
    fetched and parsed. *)
Theorem run_requests_in_order year cc w :
  exists urls,
    requested (fst (fetch year cc w)) = requested w ++ urls /\
    (urls = [] /\ is_Some (files w !! output_name cc year) \/
     urls = [inventory_url] /\ files w !! output_name cc year = None \/
     urls = [inventory_url; ghcn_url year] /\
     files w !! output_name cc year = None /\
     exists r stations,
       fetch_gives w inventory_url r /\
       parse_inventory py_float cc (text r) = inr stations).
Proof.
  outcomes year cc w; rewrite Hrun; simpl.
  - exists []. split; [now rewrite app_nil_r|]. left. rewrite Hfile. eauto.
  - exists [inventory_url]. auto.
  - exists [inventory_url]. auto.
  - exists [inventory_url; ghcn_url year]. split; [now rewrite <- app_assoc|].
    right. right. eauto 8.
  - exists [inventory_url; ghcn_url year]. split; [now rewrite <- app_assoc|].
    right. right. eauto 8.
  - exists [inventory_url; ghcn_url year]. split; [now rewrite <- app_assoc|].
    right. right. eauto 8.
  - exists [inventory_url; ghcn_url year]. split; [now rewrite <- app_assoc|].
    right. right. eauto 8.
  - exists [inventory_url; ghcn_url year]. split; [now rewrite <- app_assoc|].
    right. right. eauto 8.
Qed.

(** ** [visualize_data] and [main] *)

Variable scatter_mapbox_accepts : list Point -> bool.


Lemma visualize_data_outcome csv_file cc year w :
  visualize_data scatter_mapbox_accepts csv_file cc year w =
    (match files w !! csv_file with
     | None => printed (CsvDoesNotExist csv_file) w
     | Some (Csv rows) =>
         if scatter_mapbox_accepts rows
         then showing (mkFigure rows cc year) w
         else printed (ErrorVisualizing (ValueError "scatter_mapbox")) w
     | Some (NotATable _) => printed (ErrorVisualizing ReadError) w
     end, inr tt).
Proof.
  unfold visualize_data, scatter_mapbox, read_csv. run_monad.
  destruct (files w !! csv_file) as [[rows|bytes]|] eqn:Hf.
  - rewrite bool_decide_eq_true_2 by eauto. simpl. rewrite Hf.
    destruct (scatter_mapbox_accepts rows); reflexivity.
  - rewrite bool_decide_eq_true_2 by eauto. simpl. rewrite Hf. reflexivity.
  - rewrite bool_decide_eq_false_2 by (intros [x Hx]; discriminate). reflexivity.
Qed.

Lemma output_name_nonempty cc year : truthy (Some (output_name cc year)) = true.
Proof. unfold output_name. destruct cc; reflexivity. Qed.

Lemma main_after_run year cc w w' r :
  fetch year cc w = (w', inr r) ->
  (r = None \/ r = Some (output_name cc year)) ->
  main py_float to_datetime scatter_mapbox_accepts year cc w =
    match r with
    | Some path => visualize_data scatter_mapbox_accepts path cc year w'
    | None => (w', inr tt)
    end.
Proof.
  intros Hrun Hr. unfold main, bind. rewrite Hrun.
  destruct Hr as [-> | ->]; [reflexivity|].
  now rewrite output_name_nonempty.
Qed.

(** X5: [visualize_data] lets no exception escape and touches neither the files
    nor the network.  It shows one figure, holding the table of the file
    under the country and the year, when the file holds a table that
    [scatter_mapbox] accepts; otherwise it shows nothing and prints one
    line, which names the missing file when there is no file. *)
Theorem visualize_data_shows_the_table_or_reports csv_file cc year w :
  exists w',
    visualize_data scatter_mapbox_accepts csv_file cc year w = (w', inr tt) /\
    files w' = files w /\ requested w' = requested w /\ internet w' = internet w /\
    ((stdout w' = stdout w /\
      exists rows,
        files w !! csv_file = Some (Csv rows) /\ scatter_mapbox_accepts rows = true /\
        shown w' = shown w ++ [mkFigure rows cc year]) \/
     (shown w' = shown w /\
      exists m,
        stdout w' = stdout w ++ [m] /\
        (files w !! csv_file = None -> m = CsvDoesNotExist csv_file) /\
        (is_Some (files w !! csv_file) -> exists e, m = ErrorVisualizing e))).
Proof.
  rewrite visualize_data_outcome. eexists. split; [reflexivity|].
  destruct (files w !! csv_file) as [[rows|bytes]|] eqn:Hf.
  - destruct (scatter_mapbox_accepts rows) eqn:Hacc; simpl; repeat (split; [reflexivity|]).
    + left. split; [reflexivity|]. exists rows. auto.
    + right. split; [reflexivity|]. eexists. split; [reflexivity|].
      split; [discriminate | eauto].
  - simpl. repeat (split; [reflexivity|]).
    right. split; [reflexivity|]. eexists. split; [reflexivity|].
    split; [discriminate | eauto].
  - simpl. repeat (split; [reflexivity|]).
    right. split; [reflexivity|]. eexists. split; [reflexivity|].
    split; [reflexivity | intros [x Hx]; discriminate].
Qed.

(** X7: when the artifact exists, [main] asks the network for nothing and
    visualises whatever the file holds, however old: a table
    [scatter_mapbox] accepts is shown, and a file that is no table, or a
    table it refuses, is reported after the line that says the data
    exists. *)
Theorem main_on_an_existing_artifact year cc w f :
  files w !! output_name cc year = Some f ->
  let w1 := printed (AlreadyExists cc year) w in
  main py_float to_datetime scatter_mapbox_accepts year cc w =
    (match f with
     | Csv rows =>
         if scatter_mapbox_accepts rows
         then showing (mkFigure rows cc year) w1
         else printed (ErrorVisualizing (ValueError "scatter_mapbox")) w1
     | NotATable _ => printed (ErrorVisualizing ReadError) w1
     end, inr tt) /\
  requested (fst (main py_float to_datetime scatter_mapbox_accepts year cc w)) = requested w /\
  files (fst (main py_float to_datetime scatter_mapbox_accepts year cc w)) = files w.
Proof.
  intros Hf w1.
  assert (Hrun : fetch year cc w = (w1, inr (Some (output_name cc year))))
    by (apply run_cached; rewrite Hf; eauto).
  rewrite (main_after_run _ _ _ _ _ Hrun) by auto.
  rewrite visualize_data_outcome. subst w1. simpl. rewrite Hf.
  split; [reflexivity|].
  destruct f as [rows|bytes]; [destruct (scatter_mapbox_accepts rows)|]; simpl; auto.
Qed.


End EveryRun.

(** ** The saved table *)

Lemma StronglySorted_app_In {A : Type} (R : A -> A -> Prop) (l1 l2 : list A) :
  StronglySorted R l1 -> StronglySorted R l2 ->
  (forall x y, In x l1 -> In y l2 -> R x y) ->
  StronglySorted R (l1 ++ l2).
Proof.
  induction 1 as [|a l1 Hs IH Ha]; intros H2 Hcross; simpl; [assumption|].
  constructor.
  - apply IH; [assumption|]. intros x y Hx Hy. apply Hcross; [now right | assumption].
  - apply Forall_app. split; [assumption|].
    apply List.Forall_forall. intros y Hy. apply Hcross; [now left | assumption].
Qed.

Lemma groupby_mean_sorted {D : Type} (rows : list (Row D Q)) :
  StronglySorted (fun a b => String.compare (fst a) (fst b) = Lt) (groupby_mean rows).
Proof.
  unfold groupby_mean. destruct (groupby_ID_spec rows) as [Hs _].
  induction Hs as [|g gs Hs IH Hall]; simpl; constructor; [assumption|].
  apply Forall_map. eapply Forall_impl; [|exact Hall]. intros x Hx. exact Hx.
Qed.

Lemma merge_In avg stations j :
  In j (merge avg stations) <->
  In (jID j, jVALUE j) avg /\ In (jID j, jLAT j, jLON j) stations.
Proof.
  unfold merge. rewrite in_flat_map. split.
  - intros [[id m] [Hl Hj]]. apply in_map_iff in Hj as [[[id' lat] lon] [<- Hst]].
    apply filter_In in Hst as [Hst Heq]. simpl in *. apply String.eqb_eq in Heq.
    subst id'. auto.
  - intros [Hl Hst]. exists (jID j, jVALUE j). split; [assumption|].
    apply in_map_iff. exists (jID j, jLAT j, jLON j). simpl. split.
    + now destruct j.
    + apply filter_In. split; [assumption | apply String.eqb_refl].
Qed.

(** The rows [merge] gives for one row of the means. *)
Lemma merge_cons l avg stations :
  merge (l :: avg) stations =
    map (fun st => mkJoined (fst l) (snd l) (snd (fst st)) (snd st))
        (filter (fun st => String.eqb (fst (fst st)) (fst l)) stations)
    ++ merge avg stations.
Proof. reflexivity. Qed.

Lemma merge_sorted (R : string -> string -> Prop) avg stations :
  StronglySorted (fun a b => String.compare (fst a) (fst b) = Lt) avg ->
  (forall a b, String.compare a b = Lt -> R a b) ->
  (forall l, In l avg ->
     StronglySorted (fun x y => R (jID x) (jID y))
       (map (fun st => mkJoined (fst l) (snd l) (snd (fst st)) (snd st))
            (filter (fun st => String.eqb (fst (fst st)) (fst l)) stations))) ->
  StronglySorted (fun x y => R (jID x) (jID y)) (merge avg stations).
Proof.
  intros Hs HR. induction Hs as [|l avg Hs IH Hall]; intros Hblock; [constructor|].
  rewrite merge_cons. apply StronglySorted_app_In.
  - apply Hblock. now left.
  - apply IH. intros l' Hl'. apply Hblock. now right.
  - intros x y Hx Hy. apply HR.
    apply in_map_iff in Hx as [st [<- _]]. simpl.
    apply merge_In in Hy as [Hy _].
    rewrite List.Forall_forall in Hall. exact (Hall _ Hy).
Qed.

Lemma block_same_ID (R : string -> string -> Prop) (l : string * Q) (sts : list Station) :
  R (fst l) (fst l) ->
  StronglySorted (fun x y => R (jID x) (jID y))
    (map (fun st => mkJoined (fst l) (snd l) (snd (fst st)) (snd st)) sts).
Proof.
  intros Hrefl. induction sts as [|st sts IH]; simpl; constructor; [assumption|].
  apply List.Forall_forall. intros y Hy. apply in_map_iff in Hy as [st' [<- _]]. exact Hrefl.
Qed.

Lemma block_of_unique_ID (k : string) (stations : list Station) :
  NoDup (map (fun st => fst (fst st)) stations) ->
  (length (filter (fun st => String.eqb (fst (fst st)) k) stations) <= 1)%nat.
Proof.
  induction stations as [|st stations IH]; intros Hnd; simpl; [lia|].
  inversion Hnd as [|? ? Hnotin Hnd']; subst.
  destruct (String.eqb_spec (fst (fst st)) k) as [Heq|Hne]; [|now apply IH].
  simpl. assert (Hnil : filter (fun st => String.eqb (fst (fst st)) k) stations = []).
  { destruct (filter (fun st => String.eqb (fst (fst st)) k) stations)
      as [|st' rest] eqn:Hf; [reflexivity|]. exfalso.
    assert (Hin : In st' (filter (fun st => String.eqb (fst (fst st)) k) stations))
      by (rewrite Hf; now left).
    apply filter_In in Hin as [Hin Hk]. apply String.eqb_eq in Hk.
    apply Hnotin. rewrite Heq, <- Hk.
    exact (in_map (fun st : Station => fst (fst st)) stations st' Hin). }
  rewrite Hnil. simpl. lia.
Qed.

Lemma add_SIZE_keeps_columns joined :
  map (fun p => mkJoined (pID p) (pVALUE p) (pLAT p) (pLON p)) (add_SIZE joined) = joined.
Proof.
  unfold add_SIZE. rewrite map_map. simpl.
  induction joined as [|j joined IH]; simpl; [reflexivity|].
  rewrite IH. now destruct j.
Qed.

Lemma add_SIZE_sorted (R : string -> string -> Prop) joined :
  StronglySorted (fun x y => R (jID x) (jID y)) joined ->
  StronglySorted (fun p q => R (pID p) (pID q)) (add_SIZE joined).
Proof.
  unfold add_SIZE. generalize (series_max (map (fun r => Qabs (jVALUE r)) joined)).
  intros m. induction 1 as [|j joined Hs IH Hall]; simpl; constructor; [assumption|].
  apply Forall_map. simpl. exact Hall.
Qed.

(** X9: [add_SIZE] adds a column and nothing else: the rows keep their ID,
    VALUE, LAT and LON and their order.  A SIZE is never infinite: it is a
    number from 0 to 15, or it is NaN, and NaN only when every mean of the
    table is zero. *)
Theorem SIZE_is_in_range_or_NaN joined :
  map (fun p => mkJoined (pID p) (pVALUE p) (pLAT p) (pLON p)) (add_SIZE joined) = joined /\
  forall p, In p (add_SIZE joined) ->
    (exists s, pSIZE p = Fin s /\ (0 <= s <= 15)%Q) \/
    (pSIZE p = NaN /\ forall j, In j joined -> (jVALUE j == 0)%Q).
Proof.
  split; [apply add_SIZE_keeps_columns|].
  intros p Hp. apply add_SIZE_In in Hp as [j [Hj ->]]. simpl.
  destruct (series_max_nonempty (map (fun r => Qabs (jVALUE r)) joined)) as [m Hmax].
  { destruct joined; [destruct Hj | discriminate]. }
  rewrite Hmax. destruct (series_max_Fin _ _ Hmax) as [Hin Hle].
  assert (Hall : forall j', In j' joined -> (Qabs (jVALUE j') <= m)%Q).
  { intros j' Hj'. apply Hle. apply in_map_iff. eauto. }
  assert (Hm0 : (0 <= m)%Q).
  { eapply Qle_trans; [apply Qabs_nonneg | exact (Hall j Hj)]. }
  destruct (Qlt_le_dec 0 m) as [Hpos | Hnonpos].
  - left. rewrite fdiv_by_positive by assumption. simpl. eexists. split; [reflexivity|].
    apply scaled_ratio_bounds; [apply Qabs_nonneg | now apply Hall | assumption].
  - right. assert (Hz : (m == 0)%Q) by (apply Qle_antisym; assumption).
    assert (Hzero : forall j', In j' joined -> (jVALUE j' == 0)%Q).
    { intros j' Hj'. specialize (Hall j' Hj'). rewrite Hz in Hall.
      apply Qabs_Qle_condition in Hall as [Hlo Hhi]. lra. }
    split; [|exact Hzero].
    rewrite fdiv_zero_by_zero; [reflexivity | exact Hz|].
    rewrite (Hzero j Hj). reflexivity.
Qed.

Section SavedTable.

Variable to_datetime : string -> option Date.

Lemma process_inr stations data frame :
  process to_datetime stations data = inr frame ->
  exists avg,
    aggregate to_datetime (map (fun st => fst (fst st)) stations) data = inr avg /\
    frame = add_SIZE (merge avg stations).
Proof.
  unfold process.
  destruct (aggregate to_datetime _ data) as [e|avg]; simpl; [discriminate|].
  intros H. injection H as <-. eauto.
Qed.

Lemma aggregate_sorted station_ids data avg :
  aggregate to_datetime station_ids data = inr avg ->
  StronglySorted (fun a b => String.compare (fst a) (fst b) = Lt) avg.
Proof.
  unfold aggregate.
  destruct (convert_DATE to_datetime _) as [e|rows]; simpl; [discriminate|].
  intros H. injection H as <-. apply groupby_mean_sorted.
Qed.


(** X11: the rows of the saved table are in the order of their ids, equal ids
    side by side; the table of the means has one row for an id; and when no
    id occurs twice in the inventory the ids of the saved table increase
    strictly, so a station has one row at most. *)
Theorem saved_table_is_ordered_by_ID stations data frame :
  process to_datetime stations data = inr frame ->
  StronglySorted (fun p q => String.compare (pID p) (pID q) <> Gt) frame /\
  (NoDup (map (fun st => fst (fst st)) stations) ->
   StronglySorted (fun p q => String.compare (pID p) (pID q) = Lt) frame /\
   NoDup (map pID frame)).
Proof.
  intros Hp. apply process_inr in Hp as [avg [Hagg ->]].
  pose proof (aggregate_sorted _ _ _ Hagg) as Hs.
  split.
  - apply (add_SIZE_sorted (fun a b => String.compare a b <> Gt)).
    apply (merge_sorted (fun a b => String.compare a b <> Gt));
      [exact Hs | intros a b H; rewrite H; discriminate|].
    intros l _. apply (block_same_ID (fun a b => String.compare a b <> Gt)).
    assert (Hrefl : String.compare (fst l) (fst l) = Eq)
      by now apply OrderedTypeEx.String_as_OT.cmp_eq.
    rewrite Hrefl. discriminate.
  - intros Hnd.
    assert (Hstrict : StronglySorted (fun p q => String.compare (pID p) (pID q) = Lt)
                        (add_SIZE (merge avg stations))).
    { apply (add_SIZE_sorted (fun a b => String.compare a b = Lt)).
      apply (merge_sorted (fun a b => String.compare a b = Lt)); [exact Hs | auto|].
      intros l _. pose proof (block_of_unique_ID (fst l) stations Hnd) as Hlen.
      destruct (filter (fun st => String.eqb (fst (fst st)) (fst l)) stations)
        as [|st [|st' rest]]; simpl in *;
        [constructor | repeat constructor | lia]. }
    split; [exact Hstrict|].
    induction Hstrict as [|p ps Hps IH Hall]; simpl; constructor; [|exact IH].
    intros Hin. apply in_map_iff in Hin as [q [Heq Hq]].
    rewrite List.Forall_forall in Hall. specialize (Hall q Hq).
    apply compare_Lt_neq in Hall. congruence.
Qed.

End SavedTable.

(** ** From the inventory to the artifact *)

Lemma substring_beyond_the_end (s : string) : forall n m,
  (String.length s <= n)%nat -> String.substring n m s = "".
Proof.
  induction s as [|c s IH]; intros n m Hlen.
  - destruct n, m; reflexivity.
  - destruct n as [|n]; simpl in Hlen; [lia|].
    simpl. apply IH. lia.
Qed.

Lemma Forall2_In_r {A B : Type} (R : A -> B -> Prop) (l : list A) (l' : list B) y :
  Forall2 R l l' -> In y l' -> exists x, In x l /\ R x y.
Proof.
  induction 1 as [|x y' l l' Hxy _ IH]; intros Hin; [destruct Hin|].
  destruct Hin as [-> | Hin].
  - exists x. split; [now left | assumption].
  - destruct (IH Hin) as [x' [Hx' HR]]. exists x'. split; [now right | assumption].
Qed.

Section InventoryToArtifact.

Variable py_float : string -> option pyfloat.
Variable to_datetime : string -> option Date.

Local Abbreviation fetch := (fetch_and_process_data py_float to_datetime).

Ltac outcomes year cc w :=
  destruct (run_outcomes py_float to_datetime year cc w)
    as [[f [Hfile Hrun]] | [Hfile [[Hinv Hrun] | [r [Hr [[e [Hparse Hrun]] | [stations [Hparse [w2 [Hw2 [[Har Hrun] | [r2 [Hr2 [[Hcontent Hrun] | [data [Hcontent [[e [Hproc Hrun]] | [frame [Hproc [[Hrefuses Hrun] | [Hrefuses Hrun]]]]]]]]]]]]]]]]]]]]];
  try subst w2.

Lemma parsed_station_has_a_line cc inventory_data stations st :
  parse_inventory py_float cc inventory_data = inr stations ->
  In st stations ->
  exists line,
    In line (splitlines inventory_data) /\ slice 0 2 line = cc /\
    station_of py_float line st.
Proof.
  unfold parse_inventory. intros Hparse Hin.
  apply station_loop_inr in Hparse as [_ [new [-> Hnew]]]. simpl in Hin.
  destruct (Forall2_In_r _ _ _ _ Hnew Hin) as [line [Hline Hst]].
  unfold country_lines in Hline. apply filter_In in Hline as [Hline Hcc].
  apply String.eqb_eq in Hcc. eauto.
Qed.

Lemma parsed_stations_count cc inventory_data stations :
  parse_inventory py_float cc inventory_data = inr stations ->
  length stations = length (country_lines cc (splitlines inventory_data)).
Proof.
  unfold parse_inventory. intros Hparse.
  apply station_loop_inr in Hparse as [_ [new [-> Hnew]]]. simpl.
  symmetry. eapply Forall2_length. exact Hnew.
Qed.

(** X12: every row of an artifact that a run has just written comes from a line
    of the inventory that was fetched: its ID is the first eleven characters
    of the line and starts with the country code, and its LAT and LON are
    what [float] made of the two coordinate fields of the line. *)
Theorem artifact_rows_come_from_inventory_lines year cc w w' path :
  files w !! output_name cc year = None ->
  fetch year cc w = (w', inr (Some path)) ->
  exists r frame,
    fetch_gives w inventory_url r /\
    files w' !! path = Some (Csv frame) /\
    forall p, In p frame ->
      slice 0 2 (pID p) = cc /\
      exists line,
        In line (splitlines (text r)) /\
        pID p = slice 0 11 line /\
        py_float (slice 12 20 line) = Some (pLAT p) /\
        py_float (slice 21 30 line) = Some (pLON p).
Proof.
  intros Hmiss Hret.
  outcomes year cc w; rewrite Hrun in Hret; try discriminate; try congruence.
  injection Hret as <- <-. exists r, frame. split; [exact Hr|].
  split; [simpl; apply files_lookup_insert_eq|].
  intros p Hp.
  apply process_inr in Hproc as [avg [_ ->]].
  apply add_SIZE_In in Hp as [j [Hj ->]]. simpl.
  apply merge_In in Hj as [_ Hst].
  destruct (parsed_station_has_a_line _ _ _ _ Hparse Hst) as [line [Hline [Hcc Hof]]].
  destruct Hof as [Hid [Hlat Hlon]]. simpl in *.
  split.
  - rewrite Hid, slice_country_of_id. exact Hcc.
  - exists line. auto.
Qed.

(** X4: a run never ends silently.  The last line it prints tells what it
    returns: a run that returns None ends with the line of a fetch error or
    of a processing error, and a run that returns the path ends with the
    line that the data exists or with the line that it was saved.  Before
    it there is at most the line that counts the stations, and the count is
    the number of lines of the inventory that start with the country
    code. *)
Theorem run_reports_its_outcome year cc w :
  exists before m,
    stdout (fst (fetch year cc w)) = stdout w ++ before ++ [m] /\
    (before = [] \/
     exists r, fetch_gives w inventory_url r /\
       before = [FoundStations (length (country_lines cc (splitlines (text r)))) cc]) /\
    ((snd (fetch year cc w) = inr None /\
      (m = ErrorFetching RequestException \/
       exists e, m = ErrorProcessing e /\ is_RequestException e = false)) \/
     (snd (fetch year cc w) = inr (Some (output_name cc year)) /\
      (m = AlreadyExists cc year /\ before = [] \/
       m = ProcessedAndSaved (output_name cc year) /\ before <> []))).
Proof.
  outcomes year cc w; rewrite Hrun; simpl;
    try rewrite (parsed_stations_count _ _ _ Hparse).
  - exists [], (AlreadyExists cc year). simpl. split; [reflexivity|].
    split; [left; reflexivity|]. right. split; [reflexivity|]. left. auto.
  - exists [], (ErrorFetching RequestException). simpl. split; [reflexivity|].
    split; [left; reflexivity|]. left. split; [reflexivity|]. left. reflexivity.
  - exists [], (ErrorProcessing e). simpl. split; [reflexivity|].
    split; [left; reflexivity|].
    left. split; [reflexivity|]. right. exists e. split; [reflexivity|].
    eapply parse_inventory_raises_ValueError; eassumption.
  - eexists [_], _. rewrite <- app_assoc. simpl. split; [reflexivity|].
    split; [right; eauto|]. left. split; [reflexivity|]. left. reflexivity.
  - eexists [_], _. rewrite <- app_assoc. simpl. split; [reflexivity|].
    split; [right; eauto|]. left. split; [reflexivity|]. right. eauto.
  - eexists [_], _. rewrite <- app_assoc. simpl. split; [reflexivity|].
    split; [right; eauto|]. left. split; [reflexivity|]. right.
    exists e. split; [reflexivity|]. eapply process_raises_ValueError; eassumption.
  - eexists [_], _. rewrite <- app_assoc. simpl. split; [reflexivity|].
    split; [right; eauto|]. left. split; [reflexivity|]. right.
    eexists. split; reflexivity.
  - eexists [_], _. rewrite <- app_assoc. simpl. split; [reflexivity|].
    split; [right; eauto|]. right. split; [reflexivity|]. right.
    split; [reflexivity | discriminate].
Qed.

(** X13: a line of at most twelve characters, an empty line among them, has an
    empty latitude field; [float] of the empty text raises, so such a line
    anywhere in the inventory makes the parser raise, and the run that
    fetched the inventory returns None and writes nothing. *)
Theorem short_inventory_line_aborts_the_run year cc w r line :
  py_float "" = None ->
  files w !! output_name cc year = None ->
  fetch_gives w inventory_url r ->
  In line (splitlines (text r)) ->
  (String.length line <= 12)%nat ->
  slice 12 20 line = "" /\
  (exists what, parse_inventory py_float cc (text r) = inl (ValueError what)) /\
  snd (fetch year cc w) = inr None /\
  files (fst (fetch year cc w)) = files w.
Proof.
  intros Hempty Hmiss Hr Hin Hlen.
  assert (Hslice : slice 12 20 line = "")
    by (unfold slice; now apply substring_beyond_the_end).
  split; [exact Hslice|].
  assert (Hbad : ~ line_parses py_float line).
  { intros [[x Hx] _]. rewrite Hslice, Hempty in Hx. discriminate. }
  destruct (station_loop_inl py_float cc _ [] line Hin Hbad) as [what Hw].
  fold (parse_inventory py_float cc (text r)) in Hw.
  split; [eauto|].
  rewrite (run_inventory_parse_fails _ _ _ _ _ _ _ Hmiss Hr Hw). auto.
Qed.

End InventoryToArtifact.

(** ** The name of the artifact *)

Lemma to_int_is_no_empty_numeral n :
  Z.to_int n <> Decimal.Pos Decimal.Nil /\ Z.to_int n <> Decimal.Neg Decimal.Nil.
Proof.
  destruct n; simpl; split; try discriminate; intros H; injection H as H;
    now apply DecimalPos.Unsigned.to_uint_nonnil in H.
Qed.

Lemma str_int_injective a b : str_int a = str_int b -> a = b.
Proof.
  unfold str_int. intros H. apply DecimalZ.to_int_inj.
  destruct (to_int_is_no_empty_numeral a) as [Ha1 Ha2].
  destruct (to_int_is_no_empty_numeral b) as [Hb1 Hb2].
  pose proof (NilZero.isi _ Ha1 Ha2) as Ea. pose proof (NilZero.isi _ Hb1 Hb2) as Eb.
  rewrite H in Ea. rewrite Ea in Eb. now injection Eb.
Qed.

Lemma digits_have_no_underscore d :
  ~ In "_"%char (list_ascii_of_string (NilEmpty.string_of_uint d)).
Proof.
  induction d; simpl; intros H;
    try (destruct H as [H|H]; [discriminate | auto]); auto.
Qed.

Lemma str_int_has_no_underscore n : ~ In "_"%char (list_ascii_of_string (str_int n)).
Proof.
  unfold str_int, NilZero.string_of_int, NilZero.string_of_uint.
  destruct (Z.to_int n) as [d|d]; destruct d; simpl;
    intros H; repeat (destruct H as [H|H]; [discriminate|]);
    try (now apply digits_have_no_underscore in H); auto.
Qed.

Lemma chars_of_append (a b : string) :
  list_ascii_of_string (String.append a b) = list_ascii_of_string a ++ list_ascii_of_string b.
Proof. induction a as [|c a IH]; simpl; [reflexivity | now rewrite IH]. Qed.

Lemma split_at_first {A : Type} (x : A) (l1 l2 r1 r2 : list A) :
  ~ In x l1 -> ~ In x l2 -> l1 ++ x :: r1 = l2 ++ x :: r2 -> l1 = l2 /\ r1 = r2.
Proof.
  revert l2. induction l1 as [|a l1 IH]; intros [|b l2] H1 H2 Heq; simpl in *.
  - injection Heq as ->. auto.
  - injection Heq as <- _. exfalso. apply H2. now left.
  - injection Heq as -> _. exfalso. apply H1. now left.
  - injection Heq as -> Heq.
    destruct (IH l2) as [-> ->]; auto.
Qed.

(** X14: the name of the artifact determines the country code and the year,
    whatever characters the country code has: two requests with years that
    [str] prints get the same name only if they are the same request.
    (Whether two names are one file is the file system's matter.) *)
Theorem artifact_name_identifies_the_request cc1 year1 cc2 year2 :
  (Z.abs year1 < 10 ^ 4300)%Z ->
  (Z.abs year2 < 10 ^ 4300)%Z ->
  output_name cc1 year1 = output_name cc2 year2 ->
  cc1 = cc2 /\ year1 = year2.
Proof.
  intros _ _. unfold output_name. intros H.
  apply (f_equal list_ascii_of_string) in H.
  rewrite !chars_of_append in H.
  apply (f_equal (@rev ascii)) in H.
  rewrite !rev_app_distr, <- !app_assoc in H.
  apply app_inv_head in H.
  change (rev (list_ascii_of_string "_temperature_"))
    with ("_"%char :: rev (list_ascii_of_string "_temperature")) in H.
  rewrite <- !app_comm_cons in H.
  apply split_at_first in H as [Hyear Hcc].
  - apply app_inv_head in Hcc.
    apply (f_equal (@rev ascii)) in Hcc, Hyear. rewrite !rev_involutive in Hcc, Hyear.
    apply (f_equal string_of_list_ascii) in Hcc, Hyear.
    rewrite !string_of_list_ascii_of_string in Hcc, Hyear.
    split; [exact Hcc | now apply str_int_injective].
  - rewrite <- in_rev. apply str_int_has_no_underscore.
  - rewrite <- in_rev. apply str_int_has_no_underscore.
Qed.

(** ** The further properties at the examples *)


Lemma main_on_an_existing_artifact_at_NO :
  main decimal_float date_Ymd finite_sizes 2020 "NO" foreign_file =
    (printed (ErrorVisualizing ReadError) (printed (AlreadyExists "NO" 2020) foreign_file),
     inr tt) /\
  requested (fst (main decimal_float date_Ymd finite_sizes 2020 "NO" foreign_file)) = [] /\
  files (fst (main decimal_float date_Ymd finite_sizes 2020 "NO" foreign_file))
    = files foreign_file.
Proof.
  apply (main_on_an_existing_artifact decimal_float date_Ymd finite_sizes 2020 "NO"
           foreign_file (NotATable "not a table")).
  vm_compute. reflexivity.
Defined.

Lemma SIZE_is_in_range_or_NaN_at_1_2_4 :
  map (fun p => mkJoined (pID p) (pVALUE p) (pLAT p) (pLON p)) (add_SIZE joined_1_2_4)
    = joined_1_2_4 /\
  forall p, In p (add_SIZE joined_1_2_4) ->
    (exists s, pSIZE p = Fin s /\ (0 <= s <= 15)%Q) \/
    (pSIZE p = NaN /\ forall j, In j joined_1_2_4 -> (jVALUE j == 0)%Q).
Proof. apply (SIZE_is_in_range_or_NaN joined_1_2_4). Defined.


Lemma saved_table_is_ordered_by_ID_at_NO :
  StronglySorted (fun p q => String.compare (pID p) (pID q) = Lt) frame_ok /\
  NoDup (map pID frame_ok).
Proof.
  destruct (saved_table_is_ordered_by_ID date_Ymd stations_NO table_ok frame_ok)
    as [_ Hstrict].
  - vm_compute. reflexivity.
  - apply Hstrict. vm_compute.
    repeat (constructor; [simpl; intuition discriminate|]). constructor.
Defined.

Lemma artifact_rows_come_from_inventory_lines_at_NO :
  exists r frame,
    fetch_gives (online 2020 inventory_ok (Some table_ok)) inventory_url r /\
    files (fst (run 2020 "NO" (online 2020 inventory_ok (Some table_ok))))
      !! artifact_NO_2020 = Some (Csv frame) /\
    forall p, In p frame ->
      slice 0 2 (pID p) = "NO" /\
      exists line,
        In line (splitlines (text r)) /\
        pID p = slice 0 11 line /\
        decimal_float (slice 12 20 line) = Some (pLAT p) /\
        decimal_float (slice 21 30 line) = Some (pLON p).
Proof.
  apply (artifact_rows_come_from_inventory_lines decimal_float date_Ymd 2020 "NO"
           (online 2020 inventory_ok (Some table_ok))).
  - reflexivity.
  - rewrite (surjective_pairing (fetch_and_process_data _ _ _ _ _)).
    f_equal; vm_compute; reflexivity.
Defined.

Lemma short_inventory_line_aborts_the_run_at_NO :
  slice 12 20 "" = "" /\
  (exists what, parse_inventory decimal_float "NO" inventory_blank = inl (ValueError what)) /\
  snd (run 2020 "NO" (online 2020 inventory_blank (Some table_ok))) = inr None /\
  files (fst (run 2020 "NO" (online 2020 inventory_blank (Some table_ok)))) = ∅.
Proof.
  apply (short_inventory_line_aborts_the_run decimal_float date_Ymd 2020 "NO"
           (online 2020 inventory_blank (Some table_ok)) (answer inventory_blank) "").
  - reflexivity.
  - reflexivity.
  - split; vm_compute; reflexivity.
  - vm_compute. auto.
  - simpl. lia.
Defined.

Lemma artifact_name_identifies_the_request_at_NO :
  output_name "NO" 2020 = output_name "NO" 2020 /\
  output_name "NO_temperature_1" 2 <> output_name "NO" 2.
Proof.
  split; [reflexivity|]. intros H.
  destruct (artifact_name_identifies_the_request "NO_temperature_1" 2 "NO" 2) as [Hcc _].
  - reflexivity.
  - reflexivity.
  - exact H.
  - discriminate.
Defined.

Lemma fetch_and_process_data_never_raises_at_NO :
  exists w' r,
    run 2020 "NO" (read_only (online 2020 inventory_ok (Some table_ok))) = (w', inr r) /\
    (r = None \/ r = Some (output_name "NO" 2020)) /\
    internet w' = internet (read_only (online 2020 inventory_ok (Some table_ok))) /\
    shown w' = shown (read_only (online 2020 inventory_ok (Some table_ok))).
Proof.
  apply (fetch_and_process_data_never_raises decimal_float date_Ymd 2020 "NO").
  vm_compute. reflexivity.
Defined.
